(** * Fraud-Detection-System: the scoring service and its trainer

    A shallow embedding of [src/ml/serve_model.py] (class
    [FraudModelService], the [/predict] and [/reload] routes) and of the
    parts of [src/ml/train_model.py] that fix and persist the feature
    schema ([prepare_features], [save_models]).

    Conventions of the embedding:
    - a Python [float] is an exact rational ([Q]); a Python [int] is a [Z];
    - a Python exception is a value of [exn], and a call that may raise
      returns a [result], sequenced with [x ← m; k];
    - the service's [self.models], [self.scalers], [self.metadata], the
      JSON request body and a directory of files are finite maps
      ([gmap string _]); the dict literal [features], the dict
      [predictions], whose keys the code returns as a list, and the
      trainer's dicts, which it iterates, are insertion-ordered
      association lists;
    - the fitted scikit-learn / xgboost objects are opaque: an
      [estimator] is the record of the methods the service may call on
      an unpickled object, each one optional (duck typing). *)

From Stdlib Require Import QArith ZArith String List.
From stdpp Require Import gmap strings list fin_maps.

Local Open Scope string_scope.

(** ** The Python runtime the service relies on *)

Inductive exn : Type :=
| KeyError (key : string)
| AttributeError (type_name attr : string)
| IndexError
| ValueError (msg : string)
| UnpicklingError
| JSONDecodeError.

Inductive result (A : Type) : Type :=
| Ok (a : A)
| Raise (e : exn).
Arguments Ok {A} a.
Arguments Raise {A} e.

#[global] Instance result_ret : MRet result := fun A a => Ok a.

#[global] Instance result_bind : MBind result := fun A B k r =>
  match r with
  | Ok a => k a
  | Raise e => Raise e
  end.

Definition raises {A} (r : result A) : Prop :=
  match r with
  | Ok _ => False
  | Raise _ => True
  end.

(** [s.replace(old, new)] for a non-empty [old]: every occurrence of
    [old], scanning left to right without overlap, becomes [new].
    [skip] counts the characters of a matched occurrence that are still
    to be dropped. *)
Fixpoint replace_from (old new : string) (skip : nat) (s : string) : string :=
  match s with
  | EmptyString => EmptyString
  | String c s' =>
      match skip with
      | S k => replace_from old new k s'
      | O =>
          if String.prefix old s
          then new ++ replace_from old new (String.length old - 1) s'
          else String c (replace_from old new 0 s')
      end
  end.

Definition replace (s old new : string) : string := replace_from old new 0 s.

(** Values found in a JSON request body. *)
Inductive pyval : Type :=
| PyInt (z : Z)
| PyFloat (q : Q)
| PyStr (s : string)
| PyBool (b : bool)
| PyNone.

(** [d.get(key, default)] *)
Definition dict_get_default {V} (d : gmap string V) (key : string) (default : V) : V :=
  match d !! key with
  | Some v => v
  | None => default
  end.

(** Insertion-ordered dicts. *)
Module PyDict.
Section Dict.
Context {V : Type}.

Definition t : Type := list (string * V).

Fixpoint get (key : string) (d : t) : option V :=
  match d with
  | [] => None
  | (k, v) :: d' => if String.eqb k key then Some v else get key d'
  end.

Definition mem (key : string) (d : t) : bool :=
  match get key d with
  | Some _ => true
  | None => false
  end.

(** [d[key] = v]: overwrite in place, or append a new key. *)
Fixpoint set (key : string) (v : V) (d : t) : t :=
  match d with
  | [] => [(key, v)]
  | (k, w) :: d' =>
      if String.eqb k key then (k, v) :: d' else (k, w) :: set key v d'
  end.

Definition keys (d : t) : list string := map fst d.

(** [d[key]] *)
Definition getitem (key : string) (d : t) : result V :=
  match get key d with
  | Some v => Ok v
  | None => Raise (KeyError key)
  end.
End Dict.
Arguments t V : clear implicits.
End PyDict.

(** [l[i]] on a sequence. *)
Definition seq_getitem {A} (l : list A) (i : nat) : result A :=
  match nth_error l i with
  | Some a => Ok a
  | None => Raise IndexError
  end.

(** A numpy array: its shape and its elements in row-major order. *)
Record ndarray : Type := { shape : list Z; data : list pyval }.

Definition np_array (l : list pyval) : ndarray :=
  {| shape := [Z.of_nat (length l)]; data := l |}.

(** [a.reshape(rows, cols)]; [-1] lets numpy infer that dimension. *)
Definition reshape (a : ndarray) (rows cols : Z) : result ndarray :=
  let n := Z.of_nat (length (data a)) in
  if (cols =? -1)%Z then
    if ((0 <? rows) && (n mod rows =? 0))%Z
    then Ok {| shape := [rows; (n / rows)%Z]; data := data a |}
    else Raise (ValueError "cannot reshape array")
  else if ((0 <=? rows) && (0 <=? cols) && (rows * cols =? n))%Z
    then Ok {| shape := [rows; cols]; data := data a |}
    else Raise (ValueError "cannot reshape array").

(** Attribute lookup on an array. Of the attributes of [numpy.ndarray]
    only [reshape] is embedded; a name that is not an attribute raises
    [AttributeError], as [getattr] does. *)
Definition ndarray_getattr (a : ndarray) (attr : string)
  : result (Z -> Z -> result ndarray) :=
  if String.eqb attr "reshape" then Ok (reshape a)
  else Raise (AttributeError "numpy.ndarray" attr).

(** Attribute lookup on a dict, for the one view the trainer asks for:
    [items] gives the pairs in insertion order; any other name here is
    not an attribute of [dict]. *)
Definition dict_getattr {V} (d : PyDict.t V) (attr : string)
  : result (list (string * V)) :=
  if String.eqb attr "items" then Ok d
  else Raise (AttributeError "dict" attr).

(** An unpickled object, seen through the methods the service calls. *)
Record estimator : Type := {
  predict_proba : option (ndarray -> result (list (list Q)));
  decision_function : option (ndarray -> result (list Q));
  predict : option (ndarray -> result (list Z));
  transform : option (ndarray -> result ndarray)
}.

(** [obj.name(x)] *)
Definition call_method {A B} (name : string) (method : option (A -> result B)) (x : A)
  : result B :=
  match method with
  | Some f => f x
  | None => Raise (AttributeError "object" name)
  end.

(** Values of a metadata file: a string or a list of strings. *)
Inductive json : Type :=
| JStr (s : string)
| JList (l : list string).

(** [for name in v]: a list yields its items, a [str] its characters. *)
Definition py_iter (v : json) : list string :=
  match v with
  | JList l => l
  | JStr s => map (fun c => String c EmptyString) (list_ascii_of_string s)
  end.

(** The content of a file, by what the two loaders make of it. *)
Inductive blob : Type :=
| Pickled (obj : estimator)
| JsonObject (o : gmap string json)
| Corrupt.

Definition pickle_load (b : blob) : result estimator :=
  match b with
  | Pickled obj => Ok obj
  | _ => Raise UnpicklingError
  end.

Definition json_load (b : blob) : result (gmap string json) :=
  match b with
  | JsonObject o => Ok o
  | _ => Raise JSONDecodeError
  end.

(** ** [FraudModelService] *)

Record FraudModelService : Type := {
  models : gmap string estimator;
  scalers : gmap string estimator;
  feature_names : json;
  metadata : gmap string json;
  models_dir : string
}.

(** *** [extract_features] *)

(** The dict literal [features] (lines 50-66). *)
Definition features (transaction_data : gmap string pyval) : PyDict.t pyval :=
  [ ("amount", dict_get_default transaction_data "amount" (PyInt 0));
    ("hour", dict_get_default transaction_data "hour" (PyInt 12));
    ("day_of_week", dict_get_default transaction_data "day_of_week" (PyInt 0));
    ("is_weekend", dict_get_default transaction_data "is_weekend" (PyInt 0));
    ("is_night", dict_get_default transaction_data "is_night" (PyInt 0));
    ("amount_z_score", dict_get_default transaction_data "amount_z_score" (PyInt 0));
    ("time_diff_minutes", dict_get_default transaction_data "time_diff_minutes" (PyInt 60));
    ("has_location", dict_get_default transaction_data "has_location" (PyInt 1));
    ("user_risk_score", dict_get_default transaction_data "user_risk_score" (PyInt 20));
    ("user_avg_amount", dict_get_default transaction_data "user_avg_amount" (PyInt 100));
    ("user_amount_std", dict_get_default transaction_data "user_amount_std" (PyInt 50));
    ("user_txn_count", dict_get_default transaction_data "user_txn_count" (PyInt 10));
    ("merchant_fraud_rate",
       dict_get_default transaction_data "merchant_fraud_rate" (PyFloat 0.02));
    ("merchant_category_encoded",
       dict_get_default transaction_data "merchant_category_encoded" (PyInt 0));
    ("merchant_risk_encoded",
       dict_get_default transaction_data "merchant_risk_encoded" (PyInt 0)) ].

(** The comprehension [[features[name] for name in self.feature_names]]
    (line 68): the first name that is not a key of [features] raises. *)
Fixpoint comprehension (feats : PyDict.t pyval) (names : list string)
  : result (list pyval) :=
  match names with
  | [] => Ok []
  | name :: names' =>
      v ← PyDict.getitem name feats;
      vs ← comprehension feats names';
      mret (v :: vs)
  end.

Definition feature_vector (self : FraudModelService)
    (transaction_data : gmap string pyval) : result (list pyval) :=
  comprehension (features transaction_data) (py_iter (feature_names self)).

(** Lines 49-69. The attribute is spelled as in the source. *)
Definition extract_features (self : FraudModelService)
    (transaction_data : gmap string pyval) : result ndarray :=
  feature_vector ← feature_vector self transaction_data;
  method ← ndarray_getattr (np_array feature_vector) "resape";
  method 1%Z (-1)%Z.


(** *** [predict_fraud] *)

(** An entry of [predictions]: the two dict shapes the code builds. *)
Inductive model_prediction : Type :=
| Probability (fraud_probability : Q) (prediction : Z)
| Anomaly (anomaly_score : Q) (is_anomaly : Z).

(** [int(b)] for a Python [bool]. *)
Definition int_of_bool (b : bool) : Z := if b then 1%Z else 0%Z.

(** [x > y] on floats. *)
Definition Qgt_bool (x y : Q) : bool := negb (Qle_bool x y).

(** Lines 86-90, and again 92-96 with [xgb_proba]: the entry built from
    [model.predict_proba(features_scaled)[0]]. *)
Definition probability_entry (model : estimator) (features_scaled : ndarray)
  : result model_prediction :=
  rows ← call_method "predict_proba" (predict_proba model) features_scaled;
  proba ← seq_getitem rows 0;
  fraud_probability ← seq_getitem proba 1;
  mret (Probability fraud_probability (int_of_bool (Qgt_bool fraud_probability 0.5))).

(** Lines 98-103. *)
Definition anomaly_entry (model : estimator) (features_scaled : ndarray)
  : result model_prediction :=
  scores ← call_method "decision_function" (decision_function model) features_scaled;
  iso_score ← seq_getitem scores 0;
  labels ← call_method "predict" (predict model) features_scaled;
  iso_pred ← seq_getitem labels 0;
  mret (Anomaly iso_score (int_of_bool (iso_pred =? -1)%Z)).

(** Lines 84-103: the dict [predictions]. *)
Definition predictions (self_models : gmap string estimator) (features_scaled : ndarray)
  : result (PyDict.t model_prediction) :=
  let predictions := [] in
  predictions ←
    match self_models !! "random_forest" with
    | Some model =>
        entry ← probability_entry model features_scaled;
        mret (PyDict.set "random_forest" entry predictions)
    | None => mret predictions
    end;
  predictions ←
    match self_models !! "xgboost" with
    | Some model =>
        entry ← probability_entry model features_scaled;
        mret (PyDict.set "xgboost" entry predictions)
    | None => mret predictions
    end;
  match self_models !! "isolation_forest" with
  | Some model =>
      entry ← anomaly_entry model features_scaled;
      mret (PyDict.set "isolation_forest" entry predictions)
  | None => mret predictions
  end.

(** [entry['fraud_probability']] *)
Definition get_fraud_probability (entry : model_prediction) : result Q :=
  match entry with
  | Probability p _ => Ok p
  | Anomaly _ _ => Raise (KeyError "fraud_probability")
  end.

(** Lines 105-109: the list [fraud_scores]. *)
Definition fraud_scores (predictions : PyDict.t model_prediction) : result (list Q) :=
  let fraud_scores := [] in
  fraud_scores ←
    (if PyDict.mem "random_forest" predictions then
       entry ← PyDict.getitem "random_forest" predictions;
       p ← get_fraud_probability entry;
       mret (fraud_scores ++ [p])%list
     else mret fraud_scores);
  if PyDict.mem "xgboost" predictions then
    entry ← PyDict.getitem "xgboost" predictions;
    p ← get_fraud_probability entry;
    mret (fraud_scores ++ [p])%list
  else mret fraud_scores.

(** [np.mean] of a non-empty list: the sum over the count. *)
Definition np_mean (l : list Q) : Q :=
  (fold_right Qplus 0 l / inject_Z (Z.of_nat (length l)))%Q.

(** Line 111. *)
Definition ensemble_score (predictions : PyDict.t model_prediction) : result Q :=
  fraud_scores ← fraud_scores predictions;
  mret (match fraud_scores with
        | [] => 0%Q
        | _ :: _ => np_mean fraud_scores
        end).

(** Lines 113-121: the pair ([risk_level], [action]). *)
Definition risk (ensemble_score : Q) : string * string :=
  if Qle_bool 0.8 ensemble_score then ("HIGH", "BLOCK")
  else if Qle_bool 0.5 ensemble_score then ("MEDIUM", "REVIEW")
  else ("LOW", "ALLOW").

(** The dict returned at lines 123-130. *)
Record prediction_result : Type := {
  fraud_score : Q;
  risk_level : string;
  action : string;
  model_predictions : PyDict.t model_prediction;
  feature_count : nat;
  models_used : list string
}.

(** What [predict_fraud] returns: the dict of lines 73-77 or that of
    lines 123-130. *)
Inductive response : Type :=
| NoModels (error : string) (fraud_score : Z)
    (model_predictions : PyDict.t model_prediction)
| Prediction (p : prediction_result).

(** Lines 105-130: from [predictions] to the returned dict. *)
Definition aggregate (predictions : PyDict.t model_prediction) (feature_count : nat)
  : result prediction_result :=
  ensemble_score ← ensemble_score predictions;
  let '(risk_level, action) := risk ensemble_score in
  mret {| fraud_score := (ensemble_score * 100)%Q;
          risk_level := risk_level;
          action := action;
          model_predictions := predictions;
          feature_count := feature_count;
          models_used := PyDict.keys predictions |}.

(** Lines 79-130: what [predict_fraud] does with the extracted features. *)
Definition score (self : FraudModelService) (features : ndarray) : result response :=
  features_scaled ←
    match scalers self !! "standard" with
    | Some scaler => call_method "transform" (transform scaler) features
    | None => mret features
    end;
  predictions ← predictions (models self) features_scaled;
  result ← aggregate predictions (length (py_iter (feature_names self)));
  mret (Prediction result).

(** Lines 71-130. *)
Definition predict_fraud (self : FraudModelService)
    (transaction_data : gmap string pyval) : result response :=
  if decide (models self = ∅) then
    mret (NoModels "No models loaded. Please train models first" 0 [])
  else
    features ← extract_features self transaction_data;
    score self features.

(** *** [load_models] *)

(** A method that updates [self] and may raise; an exception keeps the
    updates made before it. *)
Definition method (A : Type) : Type :=
  FraudModelService → result A * FraudModelService.

#[global] Instance method_ret : MRet method := fun A a self => (Ok a, self).

#[global] Instance method_bind : MBind method := fun A B k m self =>
  match m self with
  | (Ok a, self') => k a self'
  | (Raise e, self') => (Raise e, self')
  end.

Definition lift {A} (r : result A) : method A := fun self => (r, self).

Definition get_self : method FraudModelService := fun self => (Ok self, self).

(** [self.metadata = o] *)
Definition set_metadata (o : gmap string json) : method unit := fun self =>
  (Ok tt, {| models := models self; scalers := scalers self;
             feature_names := feature_names self; metadata := o;
             models_dir := models_dir self |}).

(** [self.feature_names = v] *)
Definition set_feature_names (v : json) : method unit := fun self =>
  (Ok tt, {| models := models self; scalers := scalers self;
             feature_names := v; metadata := metadata self;
             models_dir := models_dir self |}).

(** [self.models[name] = obj] *)
Definition set_model (name : string) (obj : estimator) : method unit := fun self =>
  (Ok tt, {| models := <[name := obj]> (models self); scalers := scalers self;
             feature_names := feature_names self; metadata := metadata self;
             models_dir := models_dir self |}).

(** [self.scalers[name] = obj] *)
Definition set_scaler (name : string) (obj : estimator) : method unit := fun self =>
  (Ok tt, {| models := models self; scalers := <[name := obj]> (scalers self);
             feature_names := feature_names self; metadata := metadata self;
             models_dir := models_dir self |}).

(** [for x in l: body(x)] *)
Fixpoint for_each {A} (l : list A) (body : A → method unit) : method unit :=
  match l with
  | [] => mret tt
  | x :: l' => body x;; for_each l' body
  end.

(** Line 33. *)
Definition model_files : list string :=
  ["random_forest.pkl"; "xgboost.pkl"; "isolation_forest.pkl"].

(** Line 37, with the pattern as the source spells it. *)
Definition model_name (model_file : string) : string :=
  replace model_file ",pkl" "".

(** The body of the loop, lines 35-40. A directory maps each file name
    in it to the file's content. *)
Definition load_model_file (dir : gmap string blob) (model_file : string)
  : method unit :=
  match dir !! model_file with
  | Some file =>
      obj ← lift (pickle_load file);
      set_model (model_name model_file) obj
  | None => mret tt
  end.

(** Lines 27-31. *)
Definition load_metadata (dir : gmap string blob) : method unit :=
  match dir !! "metadata.json" with
  | Some file =>
      o ← lift (json_load file);
      set_metadata o;;
      set_feature_names (dict_get_default o "feature_names" (JList []))
  | None => mret tt
  end.

(** Lines 42-46. *)
Definition load_scaler (dir : gmap string blob) : method unit :=
  match dir !! "standard_scaler.pkl" with
  | Some file =>
      obj ← lift (pickle_load file);
      set_scaler "standard" obj
  | None => mret tt
  end.

(** Lines 22-48. The file system maps the path of each existing
    directory to the directory. *)
Definition load_models (fs : gmap string (gmap string blob)) : method unit :=
  self ← get_self;
  match fs !! models_dir self with
  | None => mret tt
  | Some dir =>
      load_metadata dir;;
      for_each model_files (load_model_file dir);;
      load_scaler dir
  end.

(** Lines 14-20. The empty dict given to [feature_names] has nothing to
    iterate and length 0, like the empty list. *)
Definition init (models_dir : string) (fs : gmap string (gmap string blob))
  : result unit * FraudModelService :=
  load_models fs {| models := ∅; scalers := ∅; feature_names := JList [];
                    metadata := ∅; models_dir := models_dir |}.

(** *** The [/reload] route *)

Inductive reload_response : Type :=
| ReloadOk (message : string) (models_loaded : nat)
| ReloadFailed (error : exn) (status : nat).

(** Lines 198-213. *)
Definition reload_models (fs : gmap string (gmap string blob))
    (model_service : FraudModelService) : reload_response * FraudModelService :=
  match load_models fs model_service with
  | (Ok _, model_service') =>
      (ReloadOk "Models loaded successfully" (size (models model_service')),
       model_service')
  | (Raise e, model_service') => (ReloadFailed e 500, model_service')
  end.

(** *** The [/predict] route *)

Inductive predict_response : Type :=
| PredictRejected (error : string) (status : nat)
| PredictOk (prediction : response)
| PredictFailed (error : exn) (status : nat).

(** Lines 153-175, the route function [predict_fraud] (renamed, the
    method has the same name). The request body is a JSON object; the
    clock readings of the response are left out. *)
Definition predict_fraud_route (model_service : FraudModelService)
    (transaction_data : gmap string pyval) : predict_response :=
  if decide (transaction_data = ∅) then
    PredictRejected "No transaction data provided" 400
  else
    match predict_fraud model_service transaction_data with
    | Ok prediction => PredictOk prediction
    | Raise e => PredictFailed e 500
    end.

(** ** [FraudModelTrainer] *)

Module Trainer.

(** Lines 85-90. *)
Definition feature_columns : list string :=
  [ "amount"; "hour"; "day_of_week"; "is_weekend"; "is_night";
    "amount_z_score"; "time_diff_minutes"; "has_locations";
    "user_risk_score"; "user_avg_amount"; "user_amount_std"; "user_txn_amount";
    "merchant_fraud_rate"; "merchant_category_encoded"; "merchant_risk_encoded" ].

(** The trainer's fields that [save_models] reads. *)
Record FraudModelTrainer : Type := {
  models : PyDict.t estimator;
  scalers : PyDict.t estimator;
  feature_names : list string
}.

(** Line 95 of [prepare_features]: the schema becomes [feature_columns].
    The data frame the method also selects from is not embedded. *)
Definition prepare_features (self : FraudModelTrainer) : FraudModelTrainer :=
  {| models := models self; scalers := scalers self;
     feature_names := feature_columns |}.

(** Lines 179-183 of [save_models]: the content of [metadata.json]. *)
Definition metadata (self : FraudModelTrainer) (now : string) : gmap string json :=
  <["feature_names" := JList (feature_names self)]>
    (<["training_date" := JStr now]>
       (<["model_versions" := JList (PyDict.keys (models self))]> ∅)).

(** [pickle.dump] of each (name, object) pair to [name ++ suffix]. *)
Definition dump_all (suffix : string) (items : list (string * estimator))
    (dir : gmap string blob) : gmap string blob :=
  foldl (fun dir '(name, obj) => <[name ++ suffix := Pickled obj]> dir) dir items.

(** Lines 165-186. The directory is created when missing; an exception
    keeps the files written before it. The attribute asked of
    [self.scalers] is spelled as in the source. *)
Definition save_models (self : FraudModelTrainer) (models_dir now : string)
    (fs : gmap string (gmap string blob))
  : result unit * gmap string (gmap string blob) :=
  let dir := default ∅ (fs !! models_dir) in
  let dir := dump_all ".pkl" (models self) dir in
  match dict_getattr (scalers self) "item" with
  | Raise e => (Raise e, <[models_dir := dir]> fs)
  | Ok items =>
      let dir := dump_all "_scaler.pkl" items dir in
      let dir := <["metadata.json" := JsonObject (metadata self now)]> dir in
      (Ok tt, <[models_dir := dir]> fs)
  end.

End Trainer.

(** ** The rest of the service *)

(** *** [get_feature_importance] *)

(** [sorted(items, key=lambda x: x[1], reverse=True)]: a stable sort,
    largest value first; items of equal value keep their order.
    [insert_desc] puts an item behind every item whose value is at
    least its own. *)
Fixpoint insert_desc (x : string * Q) (l : list (string * Q)) : list (string * Q) :=
  match l with
  | [] => [x]
  | y :: l' =>
      if Qle_bool (snd x) (snd y) then y :: insert_desc x l' else x :: y :: l'
  end.

Definition sorted_desc (items : list (string * Q)) : list (string * Q) :=
  foldl (fun acc x => insert_desc x acc) [] items.

(** [dict(pairs)]: a later pair overwrites the value of an equal key,
    which keeps its place. *)
Definition dict_of_pairs {V} (pairs : list (string * V)) : PyDict.t V :=
  foldl (fun d '(k, v) => PyDict.set k v d) [] pairs.

Section FeatureImportance.

(** The attribute [feature_importances_] of an unpickled object, when
    it has one ([hasattr]); tree ensembles do. *)
Variable feature_importances_ : estimator → option (list Q).

(** Lines 132-140. *)
Definition get_feature_importance (self : FraudModelService) (model_name : string)
  : PyDict.t Q :=
  match models self !! model_name with
  | None => []
  | Some model =>
      match feature_importances_ model with
      | Some importances =>
          let importance_dict :=
            dict_of_pairs (zip (py_iter (feature_names self)) importances) in
          dict_of_pairs (sorted_desc importance_dict)
      | None => []
      end
  end.

(** Lines 177-187, the route function [get_feature_importance]
    (renamed, the method has the same name): the model name comes from
    the query string, [random_forest] when it is not given. The clock
    reading of the response is left out. *)
Definition get_feature_importance_route (model_service : FraudModelService)
    (args : gmap string string) : string * PyDict.t Q :=
  let model_name := dict_get_default args "model" "random_forest" in
  let importance := get_feature_importance model_service model_name in
  (model_name, importance).

End FeatureImportance.

(** ** The trainer's evaluation *)

Module Evaluation.

(** [rows[:, 1]]: the second entry of every row. *)
Fixpoint column1 (rows : list (list Q)) : result (list Q) :=
  match rows with
  | [] => Ok []
  | row :: rows' =>
      p ← seq_getitem row 1;
      ps ← column1 rows';
      mret (p :: ps)
  end.

(** Lines 137-142 of [evaluate_model]: the pair ([y_pred],
    [y_pred_proba]). *)
Definition y_pred (model : estimator) (X_test : ndarray) : result (list Z * list Q) :=
  match predict_proba model with
  | Some f =>
      rows ← f X_test;
      y_pred_proba ← column1 rows;
      mret (map (fun p => int_of_bool (Qgt_bool p 0.5)) y_pred_proba, y_pred_proba)
  | None =>
      labels ← call_method "predict" (predict model) X_test;
      let y_pred := map (fun label => int_of_bool (label =? -1)%Z) labels in
      y_pred_proba ←
        call_method "decision_function" (decision_function model) X_test;
      mret (y_pred, y_pred_proba)
  end.

(** [np.argmax] of a non-empty sequence: the first index that holds
    the largest value. [best] and [best_index] are the largest value
    seen so far and its index, [i] the index of the head of [l]. *)
Fixpoint argmax_from (best : Q) (best_index i : nat) (l : list Q) : nat :=
  match l with
  | [] => best_index
  | x :: l' =>
      if Qgt_bool x best then argmax_from x i (S i) l'
      else argmax_from best best_index (S i) l'
  end.

Definition np_argmax (l : list Q) : result nat :=
  match l with
  | [] => Raise (ValueError "attempt to get argmax of an empty sequence")
  | x :: l' => Ok (argmax_from x 0 1 l')
  end.

(** Lines 148-149 of [evaluate_model]. *)
Definition optimal_threshold (f1_scores thresholds : list Q) : result Q :=
  optimal_idx ← np_argmax f1_scores;
  if (optimal_idx <? length thresholds)%nat
  then seq_getitem thresholds optimal_idx
  else mret 0.5%Q.

End Evaluation.

(** * Vocabulary of the specification, stubs and sample inputs *)

(** The probability-emitting models, as the specification names them. *)
Definition probability_models : list string := ["random_forest"; "xgboost"].

(** The [fraud_probability] values of the probability-emitting models
    that have an entry in a prediction record. *)
Definition present_probabilities (predictions : PyDict.t model_prediction) : list Q :=
  omap (fun name =>
          match PyDict.get name predictions with
          | Some (Probability p _) => Some p
          | _ => None
          end) probability_models.

(** A prediction record as the data model describes it: the entry of a
    probability-emitting model carries a [fraud_probability]. *)
Definition well_formed (predictions : PyDict.t model_prediction) : Prop :=
  ∀ name entry,
    name ∈ probability_models →
    PyDict.get name predictions = Some entry →
    ∃ p c, entry = Probability p c.

Definition both_at_090 : PyDict.t model_prediction :=
  [ ("random_forest", Probability 0.9 1);
    ("xgboost", Probability 0.9 1);
    ("isolation_forest", Anomaly (-0.3) 1) ].

Definition forest_at_080 : PyDict.t model_prediction :=
  [ ("random_forest", Probability 0.8 1) ].

(** The defaults as the specification documents them. *)
Definition documented_defaults : list (string * pyval) :=
  [ ("amount", PyInt 0); ("hour", PyInt 12); ("day_of_week", PyInt 0);
    ("is_weekend", PyInt 0); ("is_night", PyInt 0); ("amount_z_score", PyInt 0);
    ("time_diff_minutes", PyInt 60); ("has_location", PyInt 1);
    ("user_risk_score", PyInt 20); ("user_avg_amount", PyInt 100);
    ("user_amount_std", PyInt 50); ("user_txn_count", PyInt 10);
    ("merchant_fraud_rate", PyFloat 0.02);
    ("merchant_category_encoded", PyInt 0); ("merchant_risk_encoded", PyInt 0) ].

(** The names [extract_features] recognizes. *)
Definition recognized (name : string) : Prop :=
  name ∈ PyDict.keys documented_defaults.

(** The value [features] holds for a name. *)
Definition feature_value (transaction_data : gmap string pyval) (name : string) : pyval :=
  default PyNone (PyDict.get name (features transaction_data)).

Definition amount_hour_service : FraudModelService :=
  {| models := ∅; scalers := ∅; feature_names := JList ["amount"; "hour"];
     metadata := ∅; models_dir := "models" |}.

(** The service started on a directory that holds the metadata file the
    trainer builds after [prepare_features]. *)
Definition service_of_trainer (trainer : Trainer.FraudModelTrainer) (now : string)
  : result unit * FraudModelService :=
  init "models"
    {[ "models" :=
         {[ "metadata.json" :=
              JsonObject (Trainer.metadata (Trainer.prepare_features trainer) now) ]} ]}.

(** [model] is probability-emitting and gives [p] as the probability of
    class 1 for the (single) row [X]. *)
Definition emits_probability (model : estimator) (X : ndarray) (p : Q) : Prop :=
  ∃ f p0 rest rows,
    predict_proba model = Some f ∧ f X = Ok ((p0 :: p :: rest) :: rows).

(** [model] is an anomaly detector whose signed decision value on [X]
    is [score] and whose binary label is [label]. *)
Definition detects_anomaly (model : estimator) (X : ndarray) (score : Q) (label : Z)
  : Prop :=
  ∃ f g scores labels,
    decision_function model = Some f ∧ predict model = Some g
    ∧ f X = Ok (score :: scores) ∧ g X = Ok (label :: labels).

(** The model's label for an outlier. *)
Definition outlier : Z := (-1)%Z.

(** What the record must hold for a probability-emitting model. *)
Definition probability_slot (self_models : gmap string estimator) (X : ndarray)
    (predictions : PyDict.t model_prediction) (name : string) : Prop :=
  match self_models !! name with
  | Some model =>
      ∃ p c,
        emits_probability model X p
        ∧ PyDict.get name predictions = Some (Probability p c)
        ∧ ((0.5 < p)%Q → c = 1%Z) ∧ ((p <= 0.5)%Q → c = 0%Z)
  | None => PyDict.get name predictions = None
  end.

(** What the record must hold for the anomaly detector. *)
Definition anomaly_slot (self_models : gmap string estimator) (X : ndarray)
    (predictions : PyDict.t model_prediction) : Prop :=
  match self_models !! "isolation_forest" with
  | Some model =>
      ∃ score label a,
        detects_anomaly model X score label
        ∧ PyDict.get "isolation_forest" predictions = Some (Anomaly score a)
        ∧ (label = outlier → a = 1%Z) ∧ (label ≠ outlier → a = 0%Z)
  | None => PyDict.get "isolation_forest" predictions = None
  end.

(** Stub artifacts: a classifier that always answers [p] for class 1,
    and a detector that always answers [score] and [label]. *)
Definition stub_classifier (p : Q) : estimator :=
  {| predict_proba := Some (fun _ => Ok [[(1 - p)%Q; p]]);
     decision_function := None;
     predict := Some (fun _ => Ok [int_of_bool (Qgt_bool p 0.5)]);
     transform := None |}.

Definition stub_detector (score : Q) (label : Z) : estimator :=
  {| predict_proba := None;
     decision_function := Some (fun _ => Ok [score]);
     predict := Some (fun _ => Ok [label]);
     transform := None |}.

Definition forest_and_detector : gmap string estimator :=
  <["random_forest" := stub_classifier 0.9]>
    (<["isolation_forest" := stub_detector (-0.3) (-1)]> ∅).

(** A directory that holds the random forest's file and nothing else. *)
Definition only_random_forest (rf : estimator) : gmap string (gmap string blob) :=
  {[ "models" := {[ "random_forest.pkl" := Pickled rf ]} ]}.

Definition no_models_response : response :=
  NoModels "No models loaded. Please train models first" 0 [].

Definition misnamed_forest_service : FraudModelService :=
  {| models := {[ "random_forest.pkl" := stub_classifier 0.9 ]};
     scalers := ∅;
     feature_names := JList ["amount"];
     metadata := ∅;
     models_dir := "models" |}.

(** The files of a directory that [load_models] reads are well-formed:
    the metadata file parses to an object, the model and scaler files
    unpickle. *)
Definition well_formed_directory (dir : gmap string blob) : Prop :=
  (∀ b, dir !! "metadata.json" = Some b → ∃ o, b = JsonObject o)
  ∧ (∀ f b, f ∈ "standard_scaler.pkl" :: model_files →
            dir !! f = Some b → ∃ obj, b = Pickled obj).

Definition with_metadata (dir : gmap string blob) (self : FraudModelService)
  : FraudModelService :=
  match dir !! "metadata.json" with
  | Some (JsonObject o) =>
      {| models := models self; scalers := scalers self;
         feature_names := dict_get_default o "feature_names" (JList []);
         metadata := o; models_dir := models_dir self |}
  | _ => self
  end.

Definition with_model (dir : gmap string blob) (model_file : string)
    (self : FraudModelService) : FraudModelService :=
  match dir !! model_file with
  | Some (Pickled obj) =>
      {| models := <[model_file := obj]> (models self); scalers := scalers self;
         feature_names := feature_names self; metadata := metadata self;
         models_dir := models_dir self |}
  | _ => self
  end.

Definition with_scaler (dir : gmap string blob) (self : FraudModelService)
  : FraudModelService :=
  match dir !! "standard_scaler.pkl" with
  | Some (Pickled obj) =>
      {| models := models self; scalers := <["standard" := obj]> (scalers self);
         feature_names := feature_names self; metadata := metadata self;
         models_dir := models_dir self |}
  | _ => self
  end.

Definition stub_scaler : estimator :=
  {| predict_proba := None; decision_function := None; predict := None;
     transform := Some (fun a => Ok a) |}.

(** The directory after a full training run, and the same directory
    once every file but the random forest's is gone. *)
Definition trained_directory : gmap string (gmap string blob) :=
  {[ "models" :=
       <["metadata.json" := JsonObject {[ "feature_names" := JList ["amount"; "hour"] ]}]>
         (<["random_forest.pkl" := Pickled (stub_classifier 0.9)]>
            (<["xgboost.pkl" := Pickled (stub_classifier 0.2)]>
               (<["standard_scaler.pkl" := Pickled stub_scaler]> ∅))) ]}.

Definition pruned_directory : gmap string (gmap string blob) :=
  only_random_forest (stub_classifier 0.7).

Definition started_on_trained : FraudModelService :=
  snd (init "models" trained_directory).

Definition hour_amount_service : FraudModelService :=
  {| models := ∅; scalers := ∅; feature_names := JList ["hour"; "amount"];
     metadata := ∅; models_dir := "models" |}.

Definition amount_colour_service : FraudModelService :=
  {| models := ∅; scalers := ∅;
     feature_names := JList ["amount"; "colour"; "shape"];
     metadata := ∅; models_dir := "models" |}.

(** The key a loaded model contributes to the prediction record. *)
Definition present_key (self_models : gmap string estimator) (name : string)
  : list string :=
  match self_models !! name with
  | Some _ => [name]
  | None => []
  end.

(** The entry lines 85-103 compute for a model under a given name. *)
Definition entry_for (name : string) (model : estimator) (X : ndarray)
  : result model_prediction :=
  if String.eqb name "isolation_forest" then anomaly_entry model X
  else probability_entry model X.

Definition forest_and_broken_xgboost : gmap string estimator :=
  <["random_forest" := stub_classifier 0.9]> (<["xgboost" := stub_scaler]> ∅).

Definition split_votes : gmap string estimator :=
  <["random_forest" := stub_classifier 0.95]> (<["xgboost" := stub_classifier 0.7]> ∅).

Definition forest_and_detector_service : FraudModelService :=
  {| models := forest_and_detector; scalers := ∅;
     feature_names := JList ["amount"]; metadata := ∅;
     models_dir := "models" |}.

(** What a run of [load_models] has read from a directory: the models
    and scalers by key, and the metadata object if there was one. *)
Record loaded : Type := {
  loaded_models : gmap string estimator;
  loaded_scalers : gmap string estimator;
  loaded_metadata : option (gmap string json)
}.

(** The service with what was read laid over what it held: a key that
    was read takes the new object, every other key keeps its object. *)
Definition overlay (l : loaded) (self : FraudModelService) : FraudModelService :=
  {| models := loaded_models l ∪ models self;
     scalers := loaded_scalers l ∪ scalers self;
     feature_names :=
       match loaded_metadata l with
       | Some o => dict_get_default o "feature_names" (JList [])
       | None => feature_names self
       end;
     metadata := default (metadata self) (loaded_metadata l);
     models_dir := models_dir self |}.

Definition nothing_loaded : loaded :=
  {| loaded_models := ∅; loaded_scalers := ∅; loaded_metadata := None |}.

(** [l] read first, [l'] read after it. *)
Definition loaded_then (l l' : loaded) : loaded :=
  {| loaded_models := loaded_models l' ∪ loaded_models l;
     loaded_scalers := loaded_scalers l' ∪ loaded_scalers l;
     loaded_metadata :=
       match loaded_metadata l' with
       | Some o => Some o
       | None => loaded_metadata l
       end |}.

(** The only keys [load_models] writes. *)
Definition expected_keys (l : loaded) : Prop :=
  (∀ k, is_Some (loaded_models l !! k) → k ∈ model_files)
  ∧ (∀ k, is_Some (loaded_scalers l !! k) → k = "standard").

(** A method whose outcome and whose writes do not depend on the state
    it starts from. *)
Definition lays_over (m : method unit) : Prop :=
  ∃ r l, expected_keys l ∧ ∀ self, m self = (r, overlay l self).

(** The states of a running service: started on some file system, then
    reloaded any number of times, each time on any file system. *)
Inductive reachable : FraudModelService → Prop :=
| reachable_init models_dir fs : reachable (snd (init models_dir fs))
| reachable_reload fs self :
    reachable self → reachable (snd (reload_models fs self)).

Definition corrupt_metadata_directory : gmap string (gmap string blob) :=
  {[ "models" :=
       <["metadata.json" := Corrupt]>
         (<["random_forest.pkl" := Pickled (stub_classifier 0.9)]> ∅) ]}.

Definition corrupt_xgboost_directory : gmap string (gmap string blob) :=
  {[ "models" :=
       <["random_forest.pkl" := Pickled (stub_classifier 0.9)]>
         (<["xgboost.pkl" := Corrupt]>
            (<["isolation_forest.pkl" := Pickled (stub_detector (-0.3) (-1))]>
               (<["standard_scaler.pkl" := Pickled stub_scaler]> ∅))) ]}.

Definition fresh_service : FraudModelService := snd (init "models" ∅).

(** The dict lines 79-130 return when no recognized model is loaded. *)
Definition zero_result (feature_count : nat) : prediction_result :=
  {| fraud_score := 0;
     risk_level := "LOW";
     action := "ALLOW";
     model_predictions := [];
     feature_count := feature_count;
     models_used := [] |}.

(** A service holding a forest under the key the loader gives it, with
    a three-name schema; and an attribute view in which every object
    has the importances 0.2, 0.5, 0.3. *)
Definition three_feature_service : FraudModelService :=
  {| models := {[ "random_forest.pkl" := stub_classifier 0.9 ]};
     scalers := ∅;
     feature_names := JList ["amount"; "hour"; "day_of_week"];
     metadata := ∅;
     models_dir := "models" |}.

Definition stub_importances (model : estimator) : option (list Q) :=
  Some [0.2%Q; 0.5%Q; 0.3%Q].

(** A trainer that holds the three models under the keys
    [train_all_models] assigns at lines 212, 216 and 220, in that
    order. *)
Definition trained_trainer (rf xgb iso : estimator)
    (trainer_scalers : PyDict.t estimator) (names : list string)
  : Trainer.FraudModelTrainer :=
  {| Trainer.models :=
       [ ("random_forest", rf); ("xgboost", xgb); ("isolation_forest", iso) ];
     Trainer.scalers := trainer_scalers;
     Trainer.feature_names := names |}.

(** * Properties *)

(** ** Insertion-ordered dicts *)

Section PyDictFacts.
Context {V : Type}.
Implicit Types (d : PyDict.t V) (k : string) (v : V).

Lemma get_set_eq d k v : PyDict.get k (PyDict.set k v d) = Some v.
Proof.
  induction d as [|[k' w] d IH]; simpl.
  - by rewrite String.eqb_refl.
  - destruct (String.eqb k' k) eqn:E; simpl; rewrite E; [done | exact IH].
Qed.



End PyDictFacts.

(** ** Comparisons on floats *)

Lemma Qle_bool_false (x y : Q) : Qle_bool x y = false ↔ (y < x)%Q.
Proof.
  split.
  - intros H. apply Qnot_le_lt. intros Hle.
    apply Qle_bool_iff in Hle. congruence.
  - intros H. destruct (Qle_bool x y) eqn:E; [|done].
    apply Qle_bool_iff in E. by apply Qlt_not_le in H.
Qed.

Lemma Qgt_bool_true (x y : Q) : Qgt_bool x y = true ↔ (y < x)%Q.
Proof.
  unfold Qgt_bool. rewrite negb_true_iff. apply Qle_bool_false.
Qed.

Lemma Qgt_bool_false (x y : Q) : Qgt_bool x y = false ↔ (x <= y)%Q.
Proof.
  unfold Qgt_bool. rewrite negb_false_iff. apply Qle_bool_iff.
Qed.

(** ** The risk aggregator (lines 105-130) *)

Lemma fraud_scores_well_formed predictions :
  well_formed predictions →
  fraud_scores predictions = Ok (present_probabilities predictions).
Proof.
  intros Hwf.
  pose proof (Hwf "random_forest") as Hrf.
  pose proof (Hwf "xgboost") as Hxgb.
  unfold fraud_scores, present_probabilities, probability_models,
    PyDict.mem, PyDict.getitem; simpl.
  destruct (PyDict.get "random_forest" predictions) as [e1|].
  - destruct (Hrf e1) as (p & c & ->); [set_solver | done |].
    destruct (PyDict.get "xgboost" predictions) as [e2|]; simpl; [|done].
    by destruct (Hxgb e2) as (q & c' & ->); [set_solver | done |].
  - destruct (PyDict.get "xgboost" predictions) as [e2|]; simpl; [|done].
    by destruct (Hxgb e2) as (q & c' & ->); [set_solver | done |].
Qed.


Lemma aggregate_ensemble_score predictions n s :
  ensemble_score predictions = Ok s →
  aggregate predictions n
  = Ok {| fraud_score := (s * 100)%Q;
          risk_level := fst (risk s);
          action := snd (risk s);
          model_predictions := predictions;
          feature_count := n;
          models_used := PyDict.keys predictions |}.
Proof.
  intros Hs. unfold aggregate. rewrite Hs. simpl.
  by destruct (risk s).
Qed.



(** The stub scenario of the specification: both probability models
    answer 0.9, so the record scores 90, HIGH, BLOCK. *)
Example aggregate_both_at_090 :
  ∃ r,
    aggregate both_at_090 15 = Ok r
    ∧ (fraud_score r == 90)%Q
    ∧ risk_level r = "HIGH" ∧ action r = "BLOCK"
    ∧ models_used r = ["random_forest"; "xgboost"; "isolation_forest"].
Proof. eexists. split; [reflexivity|]. repeat split. Qed.

Lemma risk_high (s : Q) : (0.8 <= s)%Q → risk s = ("HIGH", "BLOCK").
Proof.
  intros H. unfold risk.
  by rewrite (proj2 (Qle_bool_iff 0.8 s) H).
Qed.

Lemma risk_medium (s : Q) : (0.5 <= s)%Q → (s < 0.8)%Q → risk s = ("MEDIUM", "REVIEW").
Proof.
  intros Hlo Hhi. unfold risk.
  rewrite (proj2 (Qle_bool_false 0.8 s) Hhi).
  by rewrite (proj2 (Qle_bool_iff 0.5 s) Hlo).
Qed.

Lemma risk_low (s : Q) : (s < 0.5)%Q → risk s = ("LOW", "ALLOW").
Proof.
  intros H. unfold risk.
  assert (s < 0.8)%Q as Hhi by (eapply Qlt_trans; [exact H | reflexivity]).
  rewrite (proj2 (Qle_bool_false 0.8 s) Hhi).
  by rewrite (proj2 (Qle_bool_false 0.5 s) H).
Qed.

(** C2. Whatever record yields the ensemble score [s], the tier and the
    action that [predict_fraud] returns with it are fixed by [s] alone:
    HIGH/BLOCK when [0.8 <= s], MEDIUM/REVIEW when [0.5 <= s < 0.8],
    LOW/ALLOW when [s < 0.5]. The three ranges do not overlap; 0.8
    itself is HIGH/BLOCK and 0.5 itself is MEDIUM/REVIEW. *)
Theorem C2_risk_thresholds (predictions : PyDict.t model_prediction) (n : nat) (s : Q) :
  ensemble_score predictions = Ok s →
  ∃ r,
    aggregate predictions n = Ok r
    ∧ ((0.8 <= s)%Q → risk_level r = "HIGH" ∧ action r = "BLOCK")
    ∧ ((0.5 <= s)%Q → (s < 0.8)%Q → risk_level r = "MEDIUM" ∧ action r = "REVIEW")
    ∧ ((s < 0.5)%Q → risk_level r = "LOW" ∧ action r = "ALLOW")
    ∧ risk 0.8 = ("HIGH", "BLOCK")
    ∧ risk 0.5 = ("MEDIUM", "REVIEW").
Proof.
  intros Hs. eexists. split; [by apply aggregate_ensemble_score|]. simpl.
  repeat split.
  - by rewrite risk_high.
  - by rewrite risk_high.
  - by rewrite risk_medium.
  - by rewrite risk_medium.
  - by rewrite risk_low.
  - by rewrite risk_low.
Qed.

Lemma C2_witness :
  ensemble_score forest_at_080 = Ok (0.8 / 1)%Q
  ∧ ∃ r,
      aggregate forest_at_080 15 = Ok r
      ∧ risk_level r = "HIGH" ∧ action r = "BLOCK".
Proof.
  split; [vm_compute; reflexivity|].
  destruct (C2_risk_thresholds forest_at_080 15 (0.8 / 1)%Q)
    as (r & Hr & Hhigh & _); [vm_compute; reflexivity|].
  exists r. split; [exact Hr|]. apply Hhigh. vm_compute. discriminate.
Defined.

(** The sample points of the specification. *)
Example risk_sample_points :
  risk 0.79999 = ("MEDIUM", "REVIEW") ∧ risk 0.8 = ("HIGH", "BLOCK")
  ∧ risk 0.49999 = ("LOW", "ALLOW") ∧ risk 0.5 = ("MEDIUM", "REVIEW").
Proof. repeat split. Qed.

(** ** Feature extraction (lines 49-69) *)

Lemma features_get (transaction_data : gmap string pyval) name default :
  (name, default) ∈ documented_defaults →
  PyDict.get name (features transaction_data)
  = Some (dict_get_default transaction_data name default).
Proof.
  intros Hin. apply list_elem_of_In in Hin. simpl in Hin.
  repeat (destruct Hin as [[= <- <-]|Hin]; [reflexivity|]).
  destruct Hin.
Qed.

Lemma not_recognized name :
  forallb (fun k => negb (String.eqb k name)) (PyDict.keys documented_defaults) = true →
  ¬ recognized name.
Proof.
  intros Hall Hin. rewrite forallb_forall in Hall.
  apply list_elem_of_In in Hin. apply Hall in Hin.
  by rewrite String.eqb_refl in Hin.
Qed.

Lemma recognized_default name :
  recognized name → ∃ default, (name, default) ∈ documented_defaults.
Proof.
  unfold recognized, PyDict.keys. intros Hin.
  apply list_elem_of_fmap in Hin as [[k d] [-> Hin]]. by exists d.
Qed.

(** C3. For every transaction record and each of the 15 recognized
    feature names, the value [extract_features] takes for that name is
    the documented default when the record lacks the name, and the
    record's own value when it has it; a schema made of that one name
    gives the one-element feature list holding that value. *)
Theorem C3_extract_features_defaults
    (self : FraudModelService) (transaction_data : gmap string pyval)
    (name : string) (default : pyval) :
  (name, default) ∈ documented_defaults →
  length documented_defaults = 15
  ∧ (transaction_data !! name = None →
     PyDict.get name (features transaction_data) = Some default)
  ∧ (∀ v, transaction_data !! name = Some v →
          PyDict.get name (features transaction_data) = Some v)
  ∧ (feature_names self = JList [name] →
     feature_vector self transaction_data
     = Ok [match transaction_data !! name with
           | Some v => v
           | None => default
           end]).
Proof.
  intros Hin. pose proof (features_get transaction_data _ _ Hin) as Hget.
  unfold dict_get_default in Hget.
  split; [reflexivity|]. split; [|split].
  - intros Hnone. by rewrite Hget, Hnone.
  - intros v Hsome. by rewrite Hget, Hsome.
  - intros Hschema. unfold feature_vector. rewrite Hschema. simpl.
    unfold PyDict.getitem. by rewrite Hget.
Qed.

Lemma C3_witness :
  ("merchant_fraud_rate", PyFloat 0.02) ∈ documented_defaults
  ∧ PyDict.get "merchant_fraud_rate" (features ∅) = Some (PyFloat 0.02)
  ∧ PyDict.get "merchant_fraud_rate"
      (features {[ "merchant_fraud_rate" := PyFloat 0.25 ]})
    = Some (PyFloat 0.25).
Proof.
  assert (("merchant_fraud_rate", PyFloat 0.02) ∈ documented_defaults) as Hin.
  { apply list_elem_of_In. simpl. tauto. }
  pose (self := {| models := ∅; scalers := ∅; feature_names := JList [];
                   metadata := ∅; models_dir := "models" |}).
  split; [exact Hin|]. split.
  - destruct (C3_extract_features_defaults self ∅ _ _ Hin)
      as (_ & Habsent & _).
    apply Habsent. reflexivity.
  - destruct (C3_extract_features_defaults self
                {[ "merchant_fraud_rate" := PyFloat 0.25 ]} _ _ Hin)
      as (_ & _ & Hpresent & _).
    apply Hpresent. reflexivity.
Defined.

Lemma comprehension_recognized (transaction_data : gmap string pyval) names :
  Forall recognized names →
  comprehension (features transaction_data) names
  = Ok (feature_value transaction_data <$> names).
Proof.
  induction 1 as [|name names Hname _ IH]; [done|].
  simpl. rewrite IH. unfold PyDict.getitem, feature_value.
  destruct (recognized_default _ Hname) as [d Hd].
  by rewrite (features_get _ _ _ Hd).
Qed.

(** The list built at line 68 has one value per schema slot, in schema
    order; a reordered schema reorders it the same way. *)
Lemma feature_vector_schema_order self transaction_data names :
  feature_names self = JList names →
  Forall recognized names →
  feature_vector self transaction_data = Ok (feature_value transaction_data <$> names).
Proof.
  intros Hschema Hnames. unfold feature_vector. rewrite Hschema.
  by apply comprehension_recognized.
Qed.

Lemma feature_vector_length self transaction_data names vs :
  feature_names self = JList names →
  Forall recognized names →
  feature_vector self transaction_data = Ok vs →
  length vs = length names.
Proof.
  intros Hschema Hnames.
  rewrite (feature_vector_schema_order _ _ _ Hschema Hnames).
  intros [= <-]. by rewrite length_fmap.
Qed.

(** Line 69 looks up an attribute [numpy.ndarray] does not have. *)
Lemma resape_is_no_attribute (a : ndarray) :
  ndarray_getattr a "resape" = Raise (AttributeError "numpy.ndarray" "resape").
Proof. reflexivity. Qed.

Lemma extract_features_raises self transaction_data :
  raises (extract_features self transaction_data).
Proof.
  unfold extract_features.
  by destruct (feature_vector self transaction_data).
Qed.

Lemma extract_features_recognized self transaction_data names :
  feature_names self = JList names →
  Forall recognized names →
  extract_features self transaction_data
  = Raise (AttributeError "numpy.ndarray" "resape").
Proof.
  intros Hschema Hnames. unfold extract_features.
  by rewrite (feature_vector_schema_order _ _ _ Hschema Hnames).
Qed.

(** C5. With the schema [amount, hour] and the record [{amount: 250.0}]
    the list of line 68 is [250.0, 12], of the schema's length and in
    its order, but [extract_features] does not return it: line 69 calls
    [resape] on the array and raises [AttributeError]. *)
Theorem C5_extract_features_raises :
  feature_vector amount_hour_service {[ "amount" := PyFloat 250 ]}
  = Ok [PyFloat 250; PyInt 12]
  ∧ extract_features amount_hour_service {[ "amount" := PyFloat 250 ]}
    = Raise (AttributeError "numpy.ndarray" "resape").
Proof. split; reflexivity. Qed.

(** ** Trainer and service (round trip of the schema) *)

(** [save_models] stops at line 174, before the metadata is written. *)
Lemma save_models_raises (trainer : Trainer.FraudModelTrainer)
    (models_dir now : string) (fs : gmap string (gmap string blob)) :
  fst (Trainer.save_models trainer models_dir now fs)
  = Raise (AttributeError "dict" "item").
Proof. reflexivity. Qed.

(** C6. Given the metadata file the trainer builds from its 15 feature
    names, the service loads the names unchanged and then fails on
    every transaction record: extraction reaches the eighth name,
    [has_locations], which is not a key of [features], and raises
    [KeyError]; no vector is produced. *)
Theorem C6_trainer_schema_raises_KeyError
    (trainer : Trainer.FraudModelTrainer) (now : string)
    (transaction_data : gmap string pyval) :
  ∃ self,
    service_of_trainer trainer now = (Ok tt, self)
    ∧ feature_names self = JList Trainer.feature_columns
    ∧ length Trainer.feature_columns = 15
    ∧ ¬ recognized "has_locations"
    ∧ ¬ recognized "user_txn_amount"
    ∧ feature_vector self transaction_data = Raise (KeyError "has_locations")
    ∧ extract_features self transaction_data = Raise (KeyError "has_locations").
Proof.
  eexists. split; [reflexivity|].
  split; [reflexivity|]. split; [reflexivity|].
  split; [apply not_recognized; reflexivity|].
  split; [apply not_recognized; reflexivity|].
  split; reflexivity.
Qed.

(** ** The ensemble predictor (lines 84-103) *)

Lemma probability_entry_emits model X p :
  emits_probability model X p →
  probability_entry model X = Ok (Probability p (int_of_bool (Qgt_bool p 0.5))).
Proof.
  intros (f & p0 & rest & rows & Hf & HX).
  unfold probability_entry. rewrite Hf. simpl. by rewrite HX.
Qed.

Lemma anomaly_entry_detects model X score label :
  detects_anomaly model X score label →
  anomaly_entry model X = Ok (Anomaly score (int_of_bool (label =? outlier)%Z)).
Proof.
  intros (f & g & scores & labels & Hf & Hg & HfX & HgX).
  unfold anomaly_entry. rewrite Hf, Hg. simpl. by rewrite HfX, HgX.
Qed.

Lemma probability_slot_intro self_models X predictions name model p :
  self_models !! name = Some model →
  emits_probability model X p →
  PyDict.get name predictions
  = Some (Probability p (int_of_bool (Qgt_bool p 0.5))) →
  probability_slot self_models X predictions name.
Proof.
  intros Hm Hp Hget. unfold probability_slot. rewrite Hm.
  exists p, (int_of_bool (Qgt_bool p 0.5)).
  split; [done|]. split; [done|]. split; intros Hcmp.
  - by rewrite (proj2 (Qgt_bool_true p 0.5) Hcmp).
  - by rewrite (proj2 (Qgt_bool_false p 0.5) Hcmp).
Qed.

Lemma anomaly_slot_intro self_models X predictions model score label :
  self_models !! "isolation_forest" = Some model →
  detects_anomaly model X score label →
  PyDict.get "isolation_forest" predictions
  = Some (Anomaly score (int_of_bool (label =? outlier)%Z)) →
  anomaly_slot self_models X predictions.
Proof.
  intros Hm Hd Hget. unfold anomaly_slot. rewrite Hm.
  exists score, label, (int_of_bool (label =? outlier)%Z).
  split; [done|]. split; [done|]. split; intros Hl.
  - by rewrite (proj2 (Z.eqb_eq _ _) Hl).
  - by rewrite (proj2 (Z.eqb_neq _ _) Hl).
Qed.

(** C9. For every set of loaded models and every scaled feature vector
    on which the probability-emitting models present under
    [random_forest] and [xgboost] give a class-1 probability and the
    anomaly detector present under [isolation_forest] gives a decision
    value and a label, the record is built without error and holds: for
    each probability model present, its [fraud_probability] P(class=1)
    and [prediction] 1 when that exceeds 0.5, else 0; for the anomaly
    detector present, its [anomaly_score] and [is_anomaly] 1 exactly
    when the label is the outlier label -1; for each of the three names
    that is absent, no entry; and no entry under any other name. *)
Theorem C9_per_model_predictions
    (self_models : gmap string estimator) (X : ndarray) :
  (∀ name model,
     name ∈ probability_models → self_models !! name = Some model →
     ∃ p, emits_probability model X p) →
  (∀ model,
     self_models !! "isolation_forest" = Some model →
     ∃ score label, detects_anomaly model X score label) →
  ∃ record,
    predictions self_models X = Ok record
    ∧ probability_slot self_models X record "random_forest"
    ∧ probability_slot self_models X record "xgboost"
    ∧ anomaly_slot self_models X record
    ∧ (∀ name,
         name ∉ ["random_forest"; "xgboost"; "isolation_forest"] →
         PyDict.get name record = None).
Proof.
  intros Hprob Hiso.
  assert (∀ model, self_models !! "random_forest" = Some model →
                   ∃ p, emits_probability model X p) as Hrf.
  { intros model. apply Hprob, list_elem_of_In. simpl. tauto. }
  assert (∀ model, self_models !! "xgboost" = Some model →
                   ∃ p, emits_probability model X p) as Hxgb.
  { intros model. apply Hprob, list_elem_of_In. simpl. tauto. }
  assert (∀ (record : PyDict.t model_prediction) name,
            Forall (fun k => k ∈ ["random_forest"; "xgboost"; "isolation_forest"])
              (PyDict.keys record) →
            name ∉ ["random_forest"; "xgboost"; "isolation_forest"] →
            PyDict.get name record = None) as Hother.
  { intros record name Hkeys Hname.
    induction record as [|[k v] record IH]; [done|].
    apply Forall_cons in Hkeys as [Hk Hkeys]. simpl.
    destruct (String.eqb k name) eqn:E; [|by apply IH].
    apply String.eqb_eq in E. by subst k. }
  unfold predictions.
  destruct (self_models !! "random_forest") as [rf|] eqn:Erf;
    [destruct (Hrf rf eq_refl) as [p1 Hp1];
     rewrite (probability_entry_emits _ _ _ Hp1)|];
    (destruct (self_models !! "xgboost") as [xgb|] eqn:Exgb;
     [destruct (Hxgb xgb eq_refl) as [p2 Hp2];
      rewrite (probability_entry_emits _ _ _ Hp2)|]);
    (destruct (self_models !! "isolation_forest") as [iso|] eqn:Eiso;
     [destruct (Hiso iso eq_refl) as (sc & lb & Hd);
      rewrite (anomaly_entry_detects _ _ _ _ Hd)|]);
    simpl; eexists; (split; [reflexivity|]);
    (split; [first [by eapply probability_slot_intro
                   | by unfold probability_slot; rewrite Erf]|]);
    (split; [first [by eapply probability_slot_intro
                   | by unfold probability_slot; rewrite Exgb]|]);
    (split; [first [by eapply anomaly_slot_intro
                   | by unfold anomaly_slot; rewrite Eiso]|]);
    intros name; apply Hother; simpl;
    repeat (apply Forall_cons; split;
            [apply list_elem_of_In; simpl; tauto|]);
    apply Forall_nil_2.
Qed.

Lemma C9_witness :
  ∃ record,
    predictions forest_and_detector (np_array [PyInt 0]) = Ok record
    ∧ probability_slot forest_and_detector (np_array [PyInt 0]) record "random_forest"
    ∧ probability_slot forest_and_detector (np_array [PyInt 0]) record "xgboost"
    ∧ anomaly_slot forest_and_detector (np_array [PyInt 0]) record
    ∧ (∀ name,
         name ∉ ["random_forest"; "xgboost"; "isolation_forest"] →
         PyDict.get name record = None).
Proof.
  apply (C9_per_model_predictions forest_and_detector (np_array [PyInt 0])).
  - intros name model Hin Hm.
    apply list_elem_of_In in Hin. simpl in Hin.
    destruct Hin as [<-|[<-|[]]]; vm_compute in Hm; [|discriminate].
    injection Hm as <-. exists 0.9%Q.
    by eexists _, (1 - 0.9)%Q, [], [].
  - intros model Hm. vm_compute in Hm. injection Hm as <-.
    exists (-0.3)%Q, (-1)%Z.
    by eexists _, _, [], [].
Defined.

(** The record built for the stubs, entry by entry. *)
Example predictions_forest_and_detector :
  predictions forest_and_detector (np_array [PyInt 0])
  = Ok [ ("random_forest", Probability 0.9 1);
         ("isolation_forest", Anomaly (-0.3) 1) ].
Proof. reflexivity. Qed.

(** ** The artifact store (lines 22-48, 198-213) *)

Lemma model_name_unchanged :
  Forall (fun model_file => model_name model_file = model_file) model_files.
Proof. repeat constructor. Qed.

(** C4. Started on a directory that holds only [random_forest.pkl], the
    service loads one model, but line 37 removes [,pkl] from the file
    name, which never occurs in it: the model is stored under
    [random_forest.pkl], the key [random_forest] is absent, and the
    prediction record built from the loaded models has no entry at all.
    A reload against the same directory reports [models_loaded] 1. *)
Theorem C4_model_indexed_by_file_name (rf : estimator) (X : ndarray) :
  ∃ self,
    init "models" (only_random_forest rf) = (Ok tt, self)
    ∧ model_name "random_forest.pkl" = "random_forest.pkl"
    ∧ models self !! "random_forest.pkl" = Some rf
    ∧ models self !! "random_forest" = None
    ∧ size (models self) = 1
    ∧ predictions (models self) X = Ok []
    ∧ fst (reload_models (only_random_forest rf) self)
      = ReloadOk "Models loaded successfully" 1.
Proof.
  eexists. split; [reflexivity|]. repeat split.
Qed.

(** ** [predict_fraud] as a whole (lines 71-130) *)

(** The guard of line 72 is on [self.models] alone: the "no models
    loaded" dict is returned for no other state, whatever the schema. *)
Lemma predict_fraud_NoModels self transaction_data error score0 record :
  predict_fraud self transaction_data = Ok (NoModels error score0 record) →
  models self = ∅.
Proof.
  unfold predict_fraud. destruct (decide (models self = ∅)); [done|].
  destruct (extract_features self transaction_data) as [features0|]; [|done].
  simpl. unfold score.
  destruct (match scalers self !! "standard" with
            | Some scaler => call_method "transform" (transform scaler) features0
            | None => mret features0
            end) as [scaled|]; [|done].
  simpl. destruct (predictions (models self) scaled) as [record0|]; [|done].
  simpl. by destruct (aggregate record0 _).
Qed.

(** With a model loaded, line 78 is reached and raises. *)
Lemma predict_fraud_loaded_raises self transaction_data :
  models self ≠ ∅ → raises (predict_fraud self transaction_data).
Proof.
  intros Hne. unfold predict_fraud.
  destruct (decide (models self = ∅)); [done|].
  pose proof (extract_features_raises self transaction_data) as Hraise.
  by destruct (extract_features self transaction_data).
Qed.

(** The route answers an empty body itself, with status 400. *)
Lemma predict_fraud_route_empty_body model_service :
  predict_fraud_route model_service ∅
  = PredictRejected "No transaction data provided" 400.
Proof. reflexivity. Qed.

(** The route turns an exception of the method into a status-500 answer. *)
Lemma predict_fraud_route_loaded model_service transaction_data :
  transaction_data ≠ ∅ →
  models model_service ≠ ∅ →
  ∃ e, predict_fraud_route model_service transaction_data = PredictFailed e 500.
Proof.
  intros Hbody Hmodels. unfold predict_fraud_route.
  destruct (decide (transaction_data = ∅)); [done|].
  pose proof (predict_fraud_loaded_raises model_service transaction_data Hmodels)
    as Hraise.
  destruct (predict_fraud model_service transaction_data) as [|e]; [done|].
  by exists e.
Qed.

(** C7 (amended). Whenever no model is loaded, whatever the schema and
    the transaction record, [predict_fraud] returns, without raising,
    the dict with the error text "No models loaded. Please train models
    first", [fraud_score] 0 and no [model_predictions] entry. *)
Theorem C7_no_models_response
    (self : FraudModelService) (transaction_data : gmap string pyval) :
  models self = ∅ →
  predict_fraud self transaction_data = Ok no_models_response.
Proof.
  intros Hempty. unfold predict_fraud.
  by destruct (decide (models self = ∅)).
Qed.

(** The service started where the models directory does not exist,
    asked to score the empty record. *)
Lemma C7_witness :
  models (snd (init "models" ∅)) = ∅
  ∧ predict_fraud (snd (init "models" ∅)) ∅ = Ok no_models_response.
Proof.
  split; [reflexivity|].
  apply (C7_no_models_response (snd (init "models" ∅)) ∅). reflexivity.
Defined.

(** C7 as stated fails: started on a directory with a model file and no
    metadata file, the service has an empty schema and no metadata, yet
    scoring the empty record does not give the "no models loaded" dict;
    the call raises. *)
Lemma C7_counterexample :
  let self := snd (init "models" (only_random_forest (stub_classifier 0.9))) in
  py_iter (feature_names self) = []
  ∧ metadata self = ∅
  ∧ predict_fraud self ∅ ≠ Ok no_models_response
  ∧ predict_fraud self ∅ = Raise (AttributeError "numpy.ndarray" "resape").
Proof.
  split; [reflexivity|]. split; [reflexivity|]. split; [|reflexivity].
  intros H. apply predict_fraud_NoModels in H.
  apply (f_equal size) in H. vm_compute in H. discriminate.
Qed.

(** What lines 79-130 return for loaded models none of which has a
    recognized name, when no scaler is loaded. *)
Lemma score_unrecognized_models self features0 :
  (∀ name, name ∈ ["random_forest"; "xgboost"; "isolation_forest"] →
           models self !! name = None) →
  scalers self !! "standard" = None →
  score self features0
  = Ok (Prediction {| fraud_score := 0;
                      risk_level := "LOW";
                      action := "ALLOW";
                      model_predictions := [];
                      feature_count := length (py_iter (feature_names self));
                      models_used := [] |}).
Proof.
  intros Hnone Hscaler. unfold score, predictions. rewrite Hscaler.
  rewrite !Hnone by (apply list_elem_of_In; simpl; tauto).
  reflexivity.
Qed.

(** C10. With one model loaded under the unrecognized key
    [random_forest.pkl], no scaler, and the schema [amount], scoring
    [{amount: 250.0}] skips the "no models" branch and then raises
    [AttributeError] at line 69 ([resape]); the dict that lines 79-130
    would build (score 0, LOW, ALLOW, no entries) is never returned. *)
Theorem C10_unrecognized_models_raise :
  size (models misnamed_forest_service) = 1
  ∧ models misnamed_forest_service !! "random_forest" = None
  ∧ models misnamed_forest_service !! "xgboost" = None
  ∧ models misnamed_forest_service !! "isolation_forest" = None
  ∧ predict_fraud misnamed_forest_service {[ "amount" := PyFloat 250 ]}
    = Raise (AttributeError "numpy.ndarray" "resape")
  ∧ score misnamed_forest_service {| shape := [1; 1]%Z; data := [PyFloat 250] |}
    = Ok (Prediction {| fraud_score := 0;
                        risk_level := "LOW";
                        action := "ALLOW";
                        model_predictions := [];
                        feature_count := 1;
                        models_used := [] |}).
Proof. repeat split. Qed.

(** ** Reload (lines 198-213 over lines 22-48) *)

Lemma load_metadata_well_formed dir self :
  well_formed_directory dir →
  load_metadata dir self = (Ok tt, with_metadata dir self).
Proof.
  intros [Hmd _]. unfold load_metadata, with_metadata.
  destruct (dir !! "metadata.json") as [b|]; [|done].
  by destruct (Hmd b eq_refl) as [o ->].
Qed.

Lemma load_model_file_well_formed dir model_file self :
  well_formed_directory dir →
  model_file ∈ model_files →
  load_model_file dir model_file self = (Ok tt, with_model dir model_file self).
Proof.
  intros [_ Hpk] Hin. unfold load_model_file, with_model.
  assert (model_name model_file = model_file) as ->.
  { pose proof model_name_unchanged as Hall.
    rewrite Forall_forall in Hall. by apply Hall. }
  destruct (dir !! model_file) as [b|] eqn:E; [|done].
  destruct (Hpk model_file b) as [obj ->]; [|done..].
  by apply list_elem_of_further.
Qed.

Lemma load_scaler_well_formed dir self :
  well_formed_directory dir →
  load_scaler dir self = (Ok tt, with_scaler dir self).
Proof.
  intros [_ Hpk]. unfold load_scaler, with_scaler.
  destruct (dir !! "standard_scaler.pkl") as [b|] eqn:E; [|done].
  destruct (Hpk "standard_scaler.pkl" b) as [obj ->]; [|done..].
  apply list_elem_of_here.
Qed.

Lemma load_models_well_formed fs self dir :
  fs !! models_dir self = Some dir →
  well_formed_directory dir →
  load_models fs self
  = (Ok tt,
     with_scaler dir
       (with_model dir "isolation_forest.pkl"
          (with_model dir "xgboost.pkl"
             (with_model dir "random_forest.pkl" (with_metadata dir self))))).
Proof.
  intros Hdir Hwf. unfold load_models.
  unfold mbind at 1, method_bind, get_self. rewrite Hdir.
  unfold mbind, method_bind. rewrite load_metadata_well_formed by done.
  simpl. unfold mbind, method_bind.
  rewrite !load_model_file_well_formed
    by (done || (apply list_elem_of_In; simpl; tauto)).
  simpl. by rewrite load_scaler_well_formed.
Qed.

Lemma load_models_missing_directory fs self :
  fs !! models_dir self = None → load_models fs self = (Ok tt, self).
Proof.
  intros Hdir. unfold load_models.
  unfold mbind, method_bind, get_self. by rewrite Hdir.
Qed.

Lemma models_with_model dir model_file self name :
  models (with_model dir model_file self) !! name
  = match dir !! model_file with
    | Some (Pickled obj) =>
        if decide (model_file = name) then Some obj else models self !! name
    | _ => models self !! name
    end.
Proof.
  unfold with_model. destruct (dir !! model_file) as [[obj|o|]|]; try done.
  simpl. by rewrite lookup_insert.
Qed.

Lemma models_with_metadata dir self : models (with_metadata dir self) = models self.
Proof. unfold with_metadata. by destruct (dir !! "metadata.json") as [[]|]. Qed.

Lemma models_with_scaler dir self : models (with_scaler dir self) = models self.
Proof. unfold with_scaler. by destruct (dir !! "standard_scaler.pkl") as [[]|]. Qed.

Lemma scalers_with_model dir model_file self :
  scalers (with_model dir model_file self) = scalers self.
Proof. unfold with_model. by destruct (dir !! model_file) as [[]|]. Qed.

Lemma scalers_with_metadata dir self : scalers (with_metadata dir self) = scalers self.
Proof. unfold with_metadata. by destruct (dir !! "metadata.json") as [[]|]. Qed.

Lemma metadata_with_model dir model_file self :
  metadata (with_model dir model_file self) = metadata self
  ∧ feature_names (with_model dir model_file self) = feature_names self.
Proof. unfold with_model. by destruct (dir !! model_file) as [[]|]. Qed.

Lemma metadata_with_scaler dir self :
  metadata (with_scaler dir self) = metadata self
  ∧ feature_names (with_scaler dir self) = feature_names self.
Proof. unfold with_scaler. by destruct (dir !! "standard_scaler.pkl") as [[]|]. Qed.

(** C8 (amended). A reload against an existing directory whose files
    are well-formed succeeds, reports the number of models then held,
    and merges the directory into the loaded state: every model whose
    file is present is stored anew under the key made from its file
    name, the scaler and the metadata (with the schema taken from it)
    are replaced when their files are present, and everything whose
    backing file is absent stays as it was before the reload. *)
Theorem C8_reload_merges
    (fs : gmap string (gmap string blob)) (self : FraudModelService)
    (dir : gmap string blob) :
  fs !! models_dir self = Some dir →
  well_formed_directory dir →
  ∃ self',
    reload_models fs self
    = (ReloadOk "Models loaded successfully" (size (models self')), self')
    ∧ (∀ f obj,
         f ∈ model_files → dir !! f = Some (Pickled obj) →
         models self' !! model_name f = Some obj)
    ∧ (∀ name,
         (∀ f, f ∈ model_files → model_name f = name → dir !! f = None) →
         models self' !! name = models self !! name)
    ∧ (∀ obj,
         dir !! "standard_scaler.pkl" = Some (Pickled obj) →
         scalers self' = <["standard" := obj]> (scalers self))
    ∧ (dir !! "standard_scaler.pkl" = None → scalers self' = scalers self)
    ∧ (∀ o,
         dir !! "metadata.json" = Some (JsonObject o) →
         metadata self' = o
         ∧ feature_names self' = dict_get_default o "feature_names" (JList []))
    ∧ (dir !! "metadata.json" = None →
       metadata self' = metadata self ∧ feature_names self' = feature_names self).
Proof.
  intros Hdir Hwf. eexists. split.
  { unfold reload_models. by rewrite (load_models_well_formed _ _ _ Hdir Hwf). }
  split; [|split; [|split; [|split; [|split]]]].
  - intros f obj Hin Hf.
    rewrite models_with_scaler, !models_with_model, models_with_metadata.
    apply list_elem_of_In in Hin. simpl in Hin.
    destruct Hin as [<-|[<-|[<-|[]]]];
      change (model_name _) with "random_forest.pkl" +
      change (model_name _) with "xgboost.pkl" +
      change (model_name _) with "isolation_forest.pkl";
      rewrite ?Hf; repeat case_match; simplify_eq; done.
  - intros name Habsent.
    rewrite models_with_scaler, !models_with_model, models_with_metadata.
    assert (∀ f obj, f ∈ model_files → dir !! f = Some (Pickled obj) → f ≠ name)
      as Hne.
    { intros f obj Hin Hf <-.
      assert (model_name f = f) as Hname.
      { pose proof model_name_unchanged as Hall.
        rewrite Forall_forall in Hall. by apply Hall. }
      specialize (Habsent f Hin Hname). congruence. }
    repeat case_match; try done; subst;
      exfalso; eapply Hne; try eassumption; try reflexivity;
      apply list_elem_of_In; simpl; tauto.
  - intros obj Hsc. unfold with_scaler at 1. rewrite Hsc. simpl.
    by rewrite !scalers_with_model, scalers_with_metadata.
  - intros Hsc. unfold with_scaler at 1. rewrite Hsc.
    by rewrite !scalers_with_model, scalers_with_metadata.
  - intros o Hmd.
    rewrite (proj1 (metadata_with_scaler _ _)), (proj2 (metadata_with_scaler _ _)).
    rewrite !(proj1 (metadata_with_model _ _ _)), !(proj2 (metadata_with_model _ _ _)).
    unfold with_metadata. by rewrite Hmd.
  - intros Hmd.
    rewrite (proj1 (metadata_with_scaler _ _)), (proj2 (metadata_with_scaler _ _)).
    rewrite !(proj1 (metadata_with_model _ _ _)), !(proj2 (metadata_with_model _ _ _)).
    unfold with_metadata. by rewrite Hmd.
Qed.

Lemma reload_missing_directory fs self :
  fs !! models_dir self = None →
  reload_models fs self
  = (ReloadOk "Models loaded successfully" (size (models self)), self).
Proof.
  intros Hdir. unfold reload_models.
  by rewrite load_models_missing_directory.
Qed.

Lemma pruned_directory_well_formed :
  ∃ dir,
    pruned_directory !! models_dir started_on_trained = Some dir
    ∧ well_formed_directory dir.
Proof.
  eexists. split; [reflexivity|]. split.
  - intros b Hb. vm_compute in Hb. discriminate.
  - intros f b Hin Hb. apply list_elem_of_In in Hin. simpl in Hin.
    destruct Hin as [<-|[<-|[<-|[<-|[]]]]]; vm_compute in Hb;
      try discriminate.
    injection Hb as <-. by eexists.
Defined.

Lemma C8_witness :
  ∃ self',
    reload_models pruned_directory started_on_trained
    = (ReloadOk "Models loaded successfully" (size (models self')), self')
    ∧ models self' !! "random_forest.pkl" = Some (stub_classifier 0.7)
    ∧ models self' !! "xgboost.pkl" = models started_on_trained !! "xgboost.pkl"
    ∧ scalers self' = scalers started_on_trained.
Proof.
  destruct pruned_directory_well_formed as (dir & Hdir & Hwf).
  destruct (C8_reload_merges pruned_directory started_on_trained dir Hdir Hwf)
    as (self' & Hreload & Hpresent & Habsent & _ & Hscaler & _).
  assert (dir = {[ "random_forest.pkl" := Pickled (stub_classifier 0.7) ]}) as Edir.
  { vm_compute in Hdir. injection Hdir as <-. reflexivity. }
  exists self'. split; [exact Hreload|]. split; [|split].
  - apply (Hpresent "random_forest.pkl").
    + apply list_elem_of_In. simpl. tauto.
    + rewrite Edir. reflexivity.
  - apply Habsent. intros f Hin Hname.
    apply list_elem_of_In in Hin. simpl in Hin.
    destruct Hin as [<-|[<-|[<-|[]]]]; rewrite Edir;
      first [discriminate Hname | reflexivity].
  - apply Hscaler. rewrite Edir. reflexivity.
Defined.

(** C8 as stated fails: a service started on the trained directory and
    reloaded after every file but the random forest's has been removed
    still holds the old xgboost model, scaler, metadata and schema, and
    reports two models; it differs from the service the pruned
    directory alone provides. *)
Lemma C8_counterexample :
  let self' := snd (reload_models pruned_directory started_on_trained) in
  pruned_directory !! "models"
  = Some {[ "random_forest.pkl" := Pickled (stub_classifier 0.7) ]}
  ∧ fst (reload_models pruned_directory started_on_trained)
    = ReloadOk "Models loaded successfully" 2
  ∧ models self' !! "xgboost.pkl" = Some (stub_classifier 0.2)
  ∧ scalers self' !! "standard" = Some stub_scaler
  ∧ metadata self' = {[ "feature_names" := JList ["amount"; "hour"] ]}
  ∧ feature_names self' = JList ["amount"; "hour"]
  ∧ self' ≠ snd (init "models" pruned_directory).
Proof.
  repeat (split; [reflexivity|]).
  intros H. apply (f_equal (fun s => size (models s))) in H.
  vm_compute in H. discriminate.
Qed.

(** * Further properties of the code *)

From Stdlib Require Import Lqa Sorted.

(** ** Feature extraction: slots, errors, ignored keys *)

Lemma get_None_not_key {V} (d : PyDict.t V) (k : string) :
  k ∉ PyDict.keys d → PyDict.get k d = None.
Proof.
  induction d as [|[k' v] d IH]; [done|]. simpl. intros Hnot.
  apply not_elem_of_cons in Hnot as [Hne Hnot].
  destruct (String.eqb k' k) eqn:E; [|by apply IH].
  apply String.eqb_eq in E. congruence.
Qed.

Lemma features_get_unrecognized (transaction_data : gmap string pyval) name :
  ¬ recognized name → PyDict.get name (features transaction_data) = None.
Proof. intros Hnot. by apply get_None_not_key. Qed.

Lemma comprehension_Ok feats names vs :
  comprehension feats names = Ok vs →
  Forall2 (fun name v => PyDict.get name feats = Some v) names vs.
Proof.
  revert vs. induction names as [|name names IH]; intros vs; simpl.
  - intros [= <-]. constructor.
  - unfold PyDict.getitem.
    destruct (PyDict.get name feats) as [v|] eqn:Hget; [|done]. simpl.
    destruct (comprehension feats names) as [vs'|]; [|done]. simpl.
    intros [= <-]. constructor; [done | by apply IH].
Qed.

Lemma comprehension_first_unrecognized (transaction_data : gmap string pyval)
    pre bad post :
  Forall recognized pre → ¬ recognized bad →
  comprehension (features transaction_data) (pre ++ bad :: post)%list
  = Raise (KeyError bad).
Proof.
  intros Hpre Hbad. induction Hpre as [|name pre Hname _ IH]; simpl.
  - unfold PyDict.getitem. by rewrite features_get_unrecognized.
  - unfold PyDict.getitem. destruct (recognized_default _ Hname) as [d Hd].
    rewrite (features_get _ _ _ Hd). simpl. by rewrite IH.
Qed.

(** X1. Slot by slot: with a schema of recognized names, the list of line
    68 has the schema's length and holds at each index the record's
    value for the name at that index, or that name's default. *)
Theorem feature_vector_slots
    (self : FraudModelService) (transaction_data : gmap string pyval)
    (names : list string) :
  feature_names self = JList names →
  Forall recognized names →
  ∃ vs,
    feature_vector self transaction_data = Ok vs
    ∧ length vs = length names
    ∧ ∀ i name d,
        names !! i = Some name → (name, d) ∈ documented_defaults →
        vs !! i = Some (dict_get_default transaction_data name d).
Proof.
  intros Hschema Hnames. eexists. split; [|split].
  - by apply feature_vector_schema_order.
  - by rewrite length_fmap.
  - intros i name d Hi Hd. rewrite list_lookup_fmap, Hi. simpl.
    unfold feature_value. by rewrite (features_get _ _ _ Hd).
Qed.

Lemma feature_vector_slots_witness :
  ∃ vs,
    feature_vector amount_hour_service {[ "amount" := PyFloat 250 ]} = Ok vs
    ∧ vs !! 0%nat = Some (PyFloat 250)
    ∧ vs !! 1%nat = Some (PyInt 12).
Proof.
  destruct (feature_vector_slots amount_hour_service
              {[ "amount" := PyFloat 250 ]} ["amount"; "hour"])
    as (vs & Hvs & _ & Hslot).
  - reflexivity.
  - repeat constructor.
  - exists vs. split; [exact Hvs|]. split.
    + apply (Hslot 0%nat "amount" (PyInt 0)); [reflexivity|].
      apply list_elem_of_In. simpl. tauto.
    + apply (Hslot 1%nat "hour" (PyInt 12)); [reflexivity|].
      apply list_elem_of_In. simpl. tauto.
Defined.

(** X2. Two services whose schemas hold the same name at two slots put the
    same value there for a given record: reordering the schema reorders
    the list of line 68 the same way. *)
Theorem feature_vector_reorder
    (self self' : FraudModelService) (transaction_data : gmap string pyval)
    (vs vs' : list pyval) (i j : nat) :
  feature_vector self transaction_data = Ok vs →
  feature_vector self' transaction_data = Ok vs' →
  py_iter (feature_names self) !! i = py_iter (feature_names self') !! j →
  vs !! i = vs' !! j.
Proof.
  unfold feature_vector. intros Hvs Hvs' Hij.
  apply comprehension_Ok in Hvs. apply comprehension_Ok in Hvs'.
  destruct (py_iter (feature_names self) !! i) as [name|] eqn:Hi.
  - destruct (Forall2_lookup_l _ _ _ _ _ Hvs Hi) as (v & -> & Hv).
    symmetry in Hij.
    destruct (Forall2_lookup_l _ _ _ _ _ Hvs' Hij) as (v' & -> & Hv').
    congruence.
  - symmetry in Hij.
    apply lookup_ge_None in Hi. apply lookup_ge_None in Hij.
    rewrite (Forall2_length _ _ _ Hvs) in Hi.
    rewrite (Forall2_length _ _ _ Hvs') in Hij.
    apply lookup_ge_None in Hi. apply lookup_ge_None in Hij. congruence.
Qed.

Lemma feature_vector_reorder_witness :
  ∃ vs vs',
    feature_vector amount_hour_service {[ "amount" := PyFloat 250 ]} = Ok vs
    ∧ feature_vector hour_amount_service {[ "amount" := PyFloat 250 ]} = Ok vs'
    ∧ vs !! 0%nat = vs' !! 1%nat.
Proof.
  eexists _, _. split; [reflexivity|]. split; [reflexivity|].
  apply (feature_vector_reorder amount_hour_service hour_amount_service
           {[ "amount" := PyFloat 250 ]}); reflexivity.
Defined.

(** X3. The first schema name that is not a key of [features] decides the
    failure: extraction raises [KeyError] with that name, before
    line 69 is reached. *)
Theorem extract_features_first_unrecognized
    (self : FraudModelService) (transaction_data : gmap string pyval)
    (pre post : list string) (bad : string) :
  py_iter (feature_names self) = (pre ++ bad :: post)%list →
  Forall recognized pre →
  ¬ recognized bad →
  extract_features self transaction_data = Raise (KeyError bad).
Proof.
  intros Hschema Hpre Hbad. unfold extract_features, feature_vector.
  by rewrite Hschema, comprehension_first_unrecognized.
Qed.

Lemma extract_features_first_unrecognized_witness :
  extract_features amount_colour_service ∅ = Raise (KeyError "colour").
Proof.
  apply (extract_features_first_unrecognized amount_colour_service ∅
           ["amount"] ["shape"] "colour").
  - reflexivity.
  - repeat constructor.
  - apply not_recognized. reflexivity.
Defined.

(** X4. Keys of the request body that are not feature names are ignored:
    two records that agree on the 15 recognized names are extracted
    alike, whatever the schema. *)
Theorem extract_features_ignores_other_keys
    (self : FraudModelService) (transaction_data transaction_data' : gmap string pyval) :
  (∀ name, recognized name → transaction_data !! name = transaction_data' !! name) →
  features transaction_data = features transaction_data'
  ∧ feature_vector self transaction_data = feature_vector self transaction_data'
  ∧ extract_features self transaction_data = extract_features self transaction_data'.
Proof.
  intros Hagree.
  assert (features transaction_data = features transaction_data') as Hfeat.
  { unfold features, dict_get_default.
    by rewrite !Hagree by repeat constructor. }
  split; [exact Hfeat|].
  unfold extract_features, feature_vector. by rewrite Hfeat.
Qed.

Lemma extract_features_ignores_other_keys_witness :
  feature_vector amount_hour_service
    (<["note" := PyStr "gift"]> {[ "amount" := PyFloat 250 ]})
  = feature_vector amount_hour_service {[ "amount" := PyFloat 250 ]}.
Proof.
  apply (extract_features_ignores_other_keys amount_hour_service).
  intros name Hname. apply lookup_insert_ne. intros <-.
  revert Hname. apply not_recognized. reflexivity.
Defined.

(** ** The ensemble predictor and the aggregator together *)

Lemma Qdiv_by_1 (x : Q) : (x / 1 == x)%Q.
Proof. field. Qed.

Lemma Qdiv_by_2 (x : Q) : (x / 2 == x * (1 # 2))%Q.
Proof. field. Qed.

Lemma np_mean_one (p : Q) : (np_mean [p] == p)%Q.
Proof. unfold np_mean. simpl. field. Qed.

Lemma np_mean_two (p q : Q) : (np_mean [p; q] == (p + q) * (1 # 2))%Q.
Proof. unfold np_mean. simpl. field. Qed.

Lemma probability_entry_shape model X entry :
  probability_entry model X = Ok entry →
  ∃ p, entry = Probability p (int_of_bool (Qgt_bool p 0.5)).
Proof.
  unfold probability_entry.
  destruct (call_method "predict_proba" (predict_proba model) X) as [rows|]; [|done].
  simpl. destruct (seq_getitem rows 0) as [proba|]; [|done].
  simpl. destruct (seq_getitem proba 1) as [p|]; [|done].
  simpl. intros [= <-]. by exists p.
Qed.

Lemma anomaly_entry_shape model X entry :
  anomaly_entry model X = Ok entry → ∃ score a, entry = Anomaly score a.
Proof.
  unfold anomaly_entry.
  destruct (call_method "decision_function" (decision_function model) X)
    as [scores|]; [|done].
  simpl. destruct (seq_getitem scores 0) as [score|]; [|done].
  simpl. destruct (call_method "predict" (predict model) X) as [labels|]; [|done].
  simpl. destruct (seq_getitem labels 0) as [label|]; [|done].
  simpl. intros [= <-]. by eexists _, _.
Qed.

(** Case analysis on a run of lines 84-103: which of the three names
    are loaded, and whether the entry of each loaded one is built. *)
Ltac predictions_cases self_models X :=
  unfold predictions;
  destruct (self_models !! "random_forest") as [?rf|] eqn:?Hrf;
    [destruct (probability_entry rf X) as [?e|?x] eqn:?He|];
    (destruct (self_models !! "xgboost") as [?xgb|] eqn:?Hxgb;
     [destruct (probability_entry xgb X) as [?e|?x] eqn:?He|]);
    (destruct (self_models !! "isolation_forest") as [?iso|] eqn:?Hiso;
     [destruct (anomaly_entry iso X) as [?e|?x] eqn:?He|]);
    simpl.

Lemma predictions_entries self_models X record :
  predictions self_models X = Ok record →
  ∀ name entry,
    name ∈ probability_models → PyDict.get name record = Some entry →
    ∃ p, entry = Probability p (int_of_bool (Qgt_bool p 0.5)).
Proof.
  intros Hrecord name entry Hin Hget. revert Hrecord.
  apply list_elem_of_In in Hin. simpl in Hin.
  predictions_cases self_models X; intros [= <-];
    destruct Hin as [<-|[<-|[]]]; simpl in Hget; try discriminate;
    injection Hget as <-; eauto using probability_entry_shape.
Qed.

Lemma predictions_well_formed self_models X record :
  predictions self_models X = Ok record → well_formed record.
Proof.
  intros Hrecord name entry Hin Hget.
  destruct (predictions_entries _ _ _ Hrecord _ _ Hin Hget) as [p ->].
  by eexists _, _.
Qed.

Lemma ensemble_score_cases record :
  well_formed record →
  ∃ s,
    ensemble_score record = Ok s
    ∧ match present_probabilities record with
      | [] => s = 0%Q
      | [p] => (s == p)%Q
      | [p; q] => (s == (p + q) * (1 # 2))%Q
      | _ => False
      end.
Proof.
  intros Hwf. unfold ensemble_score.
  rewrite (fraud_scores_well_formed _ Hwf). simpl.
  unfold present_probabilities, probability_models; simpl.
  destruct (PyDict.get "random_forest" record) as [[p ?|? ?]|];
    destruct (PyDict.get "xgboost" record) as [[q ?|? ?]|];
    simpl; eexists; (split; [reflexivity|]);
    first [reflexivity | apply np_mean_one | apply np_mean_two].
Qed.

Lemma aggregate_Ok_inv record n r :
  aggregate record n = Ok r →
  ∃ s,
    ensemble_score record = Ok s
    ∧ r = {| fraud_score := (s * 100)%Q;
             risk_level := fst (risk s);
             action := snd (risk s);
             model_predictions := record;
             feature_count := n;
             models_used := PyDict.keys record |}.
Proof.
  intros Hr. destruct (ensemble_score record) as [s|e] eqn:Hs.
  - exists s. split; [done|].
    rewrite (aggregate_ensemble_score _ n _ Hs) in Hr. by injection Hr as <-.
  - unfold aggregate in Hr. by rewrite Hs in Hr.
Qed.

Lemma risk_cases (s : Q) :
  ((0.8 <= s)%Q ∧ risk s = ("HIGH", "BLOCK"))
  ∨ ((0.5 <= s)%Q ∧ (s < 0.8)%Q ∧ risk s = ("MEDIUM", "REVIEW"))
  ∨ ((s < 0.5)%Q ∧ risk s = ("LOW", "ALLOW")).
Proof.
  destruct (Qlt_le_dec s 0.8) as [Hhi|Hhi].
  - destruct (Qlt_le_dec s 0.5) as [Hlo|Hlo].
    + right. right. split; [done|]. by apply risk_low.
    + right. left. split; [done|]. split; [done|]. by apply risk_medium.
  - left. split; [done|]. by apply risk_high.
Qed.

(** X5. A score returned by lines 79-130 names the models it used: the
    recognized names that are loaded, in the order random forest,
    xgboost, isolation forest; the record has an entry for exactly
    those, and [feature_count] is the length of the schema. *)
Theorem score_models_used
    (self : FraudModelService) (features0 : ndarray) (r : prediction_result) :
  score self features0 = Ok (Prediction r) →
  models_used r
  = (present_key (models self) "random_forest"
     ++ present_key (models self) "xgboost"
     ++ present_key (models self) "isolation_forest")%list
  ∧ PyDict.keys (model_predictions r) = models_used r
  ∧ feature_count r = length (py_iter (feature_names self)).
Proof.
  unfold score.
  destruct (match scalers self !! "standard" with
            | Some scaler => call_method "transform" (transform scaler) features0
            | None => mret features0
            end) as [scaled|]; [|done].
  simpl.
  destruct (predictions (models self) scaled) as [record|] eqn:Hrecord; [|done].
  simpl.
  destruct (aggregate record _) as [r0|] eqn:Hr; [|done].
  simpl. intros [= <-].
  apply aggregate_Ok_inv in Hr as (s & _ & ->). simpl.
  split; [|done]. revert Hrecord. unfold present_key.
  predictions_cases (models self) scaled; by intros [= <-].
Qed.

Lemma score_models_used_witness :
  ∃ r,
    score forest_and_detector_service (np_array [PyInt 0]) = Ok (Prediction r)
    ∧ models_used r = ["random_forest"; "isolation_forest"].
Proof.
  destruct (score forest_and_detector_service (np_array [PyInt 0]))
    as [[| r]|] eqn:Hscore; try (vm_compute in Hscore; discriminate).
  exists r. split; [reflexivity|].
  exact (proj1 (score_models_used forest_and_detector_service
                  (np_array [PyInt 0]) r Hscore)).
Defined.

(** X6. No partial result: when the entry of any loaded model under one of
    the three names cannot be built, lines 84-103 raise, whatever the
    other models answer. *)
Theorem predictions_no_partial_result
    (self_models : gmap string estimator) (X : ndarray)
    (name : string) (model : estimator) :
  name ∈ ["random_forest"; "xgboost"; "isolation_forest"] →
  self_models !! name = Some model →
  raises (entry_for name model X) →
  raises (predictions self_models X).
Proof.
  intros Hin Hmodel. apply list_elem_of_In in Hin. simpl in Hin.
  destruct Hin as [<-|[<-|[<-|[]]]]; unfold entry_for, predictions; simpl;
    rewrite Hmodel; intros Hraise.
  - by destruct (probability_entry model X).
  - destruct (self_models !! "random_forest") as [rf|];
      [destruct (probability_entry rf X); [|done]|];
      simpl; by destruct (probability_entry model X).
  - destruct (self_models !! "random_forest") as [rf|];
      [destruct (probability_entry rf X); [|done]|];
      simpl;
      (destruct (self_models !! "xgboost") as [xgb|];
       [destruct (probability_entry xgb X); [|done]|]);
      simpl; by destruct (anomaly_entry model X).
Qed.

Lemma predictions_no_partial_result_witness :
  raises (predictions forest_and_broken_xgboost (np_array [PyInt 0])).
Proof.
  apply (predictions_no_partial_result forest_and_broken_xgboost
           (np_array [PyInt 0]) "xgboost" stub_scaler).
  - repeat constructor.
  - reflexivity.
  - exact I.
Defined.

(** X7. Probabilities between 0 and 1 give an ensemble score between 0 and
    1, hence a [fraud_score] between 0 and 100. *)
Theorem fraud_score_bounds (record : PyDict.t model_prediction) (n : nat) :
  well_formed record →
  (∀ p, p ∈ present_probabilities record → (0 <= p)%Q ∧ (p <= 1)%Q) →
  ∃ s r,
    ensemble_score record = Ok s
    ∧ aggregate record n = Ok r
    ∧ (0 <= s)%Q ∧ (s <= 1)%Q
    ∧ (0 <= fraud_score r)%Q ∧ (fraud_score r <= 100)%Q.
Proof.
  intros Hwf Hbound.
  destruct (ensemble_score_cases record Hwf) as (s & Hs & Hmean).
  exists s. eexists. split; [exact Hs|].
  split; [by apply aggregate_ensemble_score|]. simpl.
  assert ((0 <= s)%Q ∧ (s <= 1)%Q) as [Hlo Hhi].
  { destruct (present_probabilities record) as [|p [|q [|]]]; [| | |done].
    - subst s. split; lra.
    - destruct (Hbound p) as [? ?]; [repeat constructor|]. split; lra.
    - destruct (Hbound p) as [? ?]; [repeat constructor|].
      destruct (Hbound q) as [? ?]; [repeat constructor|]. split; lra. }
  repeat split; lra.
Qed.

Lemma fraud_score_bounds_witness :
  ∃ s r,
    ensemble_score both_at_090 = Ok s
    ∧ aggregate both_at_090 15 = Ok r
    ∧ (0 <= s)%Q ∧ (s <= 1)%Q
    ∧ (0 <= fraud_score r)%Q ∧ (fraud_score r <= 100)%Q.
Proof.
  apply (fraud_score_bounds both_at_090 15).
  - intros name entry Hin Hget.
    apply list_elem_of_In in Hin. simpl in Hin.
    destruct Hin as [<-|[<-|[]]]; simpl in Hget;
      injection Hget as <-; eauto.
  - intros p Hp. apply list_elem_of_In in Hp. simpl in Hp.
    destruct Hp as [<-|[<-|[]]]; split; vm_compute; discriminate.
Defined.



(** X9. The decision agrees with the per-model votes of the record that
    lines 84-103 build: BLOCK needs a probability model that votes
    fraud with a probability of at least 0.8, and ALLOW with a
    probability model present needs one that votes no fraud. *)
Theorem action_consistent_with_votes
    (self_models : gmap string estimator) (X : ndarray)
    (record : PyDict.t model_prediction) (n : nat) (r : prediction_result) :
  predictions self_models X = Ok record →
  aggregate record n = Ok r →
  (action r = "BLOCK" →
   ∃ name p,
     name ∈ probability_models
     ∧ PyDict.get name record = Some (Probability p 1) ∧ (0.8 <= p)%Q)
  ∧ (action r = "ALLOW" →
     present_probabilities record = []
     ∨ ∃ name p,
         name ∈ probability_models
         ∧ PyDict.get name record = Some (Probability p 0) ∧ (p < 0.5)%Q).
Proof.
  intros Hrecord Hr.
  pose proof (predictions_entries _ _ _ Hrecord) as Hshape.
  pose proof (predictions_well_formed _ _ _ Hrecord) as Hwf.
  apply aggregate_Ok_inv in Hr as (s & Hs & ->). simpl.
  destruct (ensemble_score_cases record Hwf) as (s' & Hs' & Hmean).
  rewrite Hs in Hs'. injection Hs' as <-.
  assert (∀ name p c,
            name ∈ probability_models →
            PyDict.get name record = Some (Probability p c) →
            ((0.5 < p)%Q → c = 1%Z) ∧ ((p <= 0.5)%Q → c = 0%Z)) as Hflag.
  { intros name p c Hin Hget.
    destruct (Hshape name _ Hin Hget) as [p' [= <- ->]]. split; intros Hcmp.
    - by rewrite (proj2 (Qgt_bool_true p 0.5) Hcmp).
    - by rewrite (proj2 (Qgt_bool_false p 0.5) Hcmp). }
  assert ("random_forest" ∈ probability_models) as Hin1 by repeat constructor.
  assert ("xgboost" ∈ probability_models) as Hin2 by repeat constructor.
  pose proof (fun p c => Hflag "random_forest" p c Hin1) as Hf1'.
  pose proof (fun p c => Hflag "xgboost" p c Hin2) as Hf2'.
  clear Hflag.
  unfold present_probabilities, probability_models in *; simpl in *.
  destruct (PyDict.get "random_forest" record) as [[p c|? ?]|] eqn:E1;
    try (by destruct (Hwf "random_forest" _ Hin1 E1) as (? & ? & ?));
    destruct (PyDict.get "xgboost" record) as [[q d|? ?]|] eqn:E2;
    try (by destruct (Hwf "xgboost" _ Hin2 E2) as (? & ? & ?));
    simpl in Hmean;
    try (destruct (Hf1' p c eq_refl) as [Hp1 Hp0]);
    try (destruct (Hf2' q d eq_refl) as [Hq1 Hq0]);
    (destruct (risk_cases s) as [[H1 ->]|[(H1 & H2 & ->)|[H1 ->]]]; simpl;
     split; intros Hact; try discriminate Hact).
  - destruct (Qlt_le_dec p 0.8) as [Hp|Hp].
    + exists "xgboost", q. rewrite E2, Hq1 by lra. repeat split; [done|lra].
    + exists "random_forest", p. rewrite E1, Hp1 by lra. by repeat split.
  - right. destruct (Qlt_le_dec p 0.5) as [Hp|Hp].
    + exists "random_forest", p. rewrite E1, Hp0 by lra. by repeat split.
    + exists "xgboost", q. rewrite E2, Hq0 by lra. repeat split; [done|lra].
  - exists "random_forest", p. rewrite E1, Hp1 by lra. repeat split; [done|lra].
  - right. exists "random_forest", p. rewrite E1, Hp0 by lra.
    repeat split; [done|lra].
  - exists "xgboost", q. rewrite E2, Hq1 by lra. repeat split; [done|lra].
  - right. exists "xgboost", q. rewrite E2, Hq0 by lra.
    repeat split; [done|lra].
  - subst s. lra.
  - by left.
Qed.
(** ** The artifact store: what a load can and cannot do *)

Lemma overlay_nothing self : overlay nothing_loaded self = self.
Proof.
  destruct self. unfold overlay. simpl.
  by rewrite !(left_id_L ∅ (∪)).
Qed.

Lemma overlay_then l l' self :
  overlay l' (overlay l self) = overlay (loaded_then l l') self.
Proof.
  unfold overlay, loaded_then. simpl.
  rewrite !(assoc_L (∪)).
  by destruct (loaded_metadata l'), (loaded_metadata l).
Qed.

Lemma overlay_twice l self : overlay l (overlay l self) = overlay l self.
Proof.
  unfold overlay. simpl.
  rewrite !(assoc_L (∪)), !(idemp_L (∪)).
  by destruct (loaded_metadata l).
Qed.

Lemma expected_nothing : expected_keys nothing_loaded.
Proof. split; intros k [v Hv]; simpl in Hv; by rewrite lookup_empty in Hv. Qed.

Lemma expected_then l l' :
  expected_keys l → expected_keys l' → expected_keys (loaded_then l l').
Proof.
  intros [Hm Hs] [Hm' Hs']. split; intros k; simpl;
    rewrite lookup_union_is_Some; intros [H|H]; auto.
Qed.

Lemma lays_over_ret : lays_over (mret tt).
Proof.
  exists (Ok tt), nothing_loaded. split; [apply expected_nothing|].
  intros self. by rewrite overlay_nothing.
Qed.

Lemma lays_over_seq (m k : method unit) :
  lays_over m → lays_over k → lays_over (m;; k).
Proof.
  intros (r & l & Hl & Hm) (r' & l' & Hl' & Hk).
  destruct r as [[]|e].
  - exists r', (loaded_then l l'). split; [by apply expected_then|].
    intros self. unfold mbind, method_bind. rewrite Hm, Hk.
    by rewrite overlay_then.
  - exists (Raise e), l. split; [done|].
    intros self. unfold mbind, method_bind. by rewrite Hm.
Qed.

Lemma lays_over_load_metadata dir : lays_over (load_metadata dir).
Proof.
  unfold load_metadata. destruct (dir !! "metadata.json") as [file|];
    [|apply lays_over_ret].
  destruct (json_load file) as [o|e] eqn:Hload.
  - exists (Ok tt), {| loaded_models := ∅; loaded_scalers := ∅;
                       loaded_metadata := Some o |}.
    split; [apply expected_nothing|].
    intros self. unfold mbind, method_bind, lift. cbn beta iota.
    unfold set_metadata, set_feature_names, overlay. simpl.
    by rewrite !(left_id_L ∅ (∪)).
  - exists (Raise e), nothing_loaded. split; [apply expected_nothing|].
    intros self. unfold mbind, method_bind, lift. cbn beta iota.
    by rewrite overlay_nothing.
Qed.

Lemma lays_over_load_model_file dir model_file :
  model_file ∈ model_files → lays_over (load_model_file dir model_file).
Proof.
  intros Hin. unfold load_model_file.
  assert (model_name model_file = model_file) as ->.
  { pose proof model_name_unchanged as Hall.
    rewrite Forall_forall in Hall. by apply Hall. }
  destruct (dir !! model_file) as [file|]; [|apply lays_over_ret].
  destruct (pickle_load file) as [obj|e] eqn:Hload.
  - exists (Ok tt), {| loaded_models := {[ model_file := obj ]};
                       loaded_scalers := ∅; loaded_metadata := None |}.
    split.
    + split; intros k [v Hv]; simpl in Hv.
      * apply lookup_singleton_Some in Hv as [<- _]. done.
      * by rewrite lookup_empty in Hv.
    + intros self. unfold mbind, method_bind, lift. cbn beta iota.
      unfold set_model, overlay. simpl.
      by rewrite (left_id_L ∅ (∪)), insert_union_singleton_l.
  - exists (Raise e), nothing_loaded. split; [apply expected_nothing|].
    intros self. unfold mbind, method_bind, lift. cbn beta iota.
    by rewrite overlay_nothing.
Qed.

Lemma lays_over_load_scaler dir : lays_over (load_scaler dir).
Proof.
  unfold load_scaler.
  destruct (dir !! "standard_scaler.pkl") as [file|]; [|apply lays_over_ret].
  destruct (pickle_load file) as [obj|e] eqn:Hload.
  - exists (Ok tt), {| loaded_models := ∅;
                       loaded_scalers := {[ "standard" := obj ]};
                       loaded_metadata := None |}.
    split.
    + split; intros k [v Hv]; simpl in Hv.
      * by rewrite lookup_empty in Hv.
      * by apply lookup_singleton_Some in Hv as [<- _].
    + intros self. unfold mbind, method_bind, lift. cbn beta iota.
      unfold set_scaler, overlay. simpl.
      by rewrite (left_id_L ∅ (∪)), insert_union_singleton_l.
  - exists (Raise e), nothing_loaded. split; [apply expected_nothing|].
    intros self. unfold mbind, method_bind, lift. cbn beta iota.
    by rewrite overlay_nothing.
Qed.

(** Whether [load_models] raises, and what it writes, depends on the
    file system and the directory name only. *)
Lemma load_models_lays_over (fs : gmap string (gmap string blob)) (dir_name : string) :
  ∃ r l,
    expected_keys l
    ∧ ∀ self, models_dir self = dir_name →
              load_models fs self = (r, overlay l self).
Proof.
  destruct (fs !! dir_name) as [dir|] eqn:Hdir.
  - assert (lays_over (load_metadata dir;;
                       for_each model_files (load_model_file dir);;
                       load_scaler dir)) as (r & l & Hl & Hrun).
    { apply lays_over_seq; [apply lays_over_load_metadata|].
      apply lays_over_seq; [|apply lays_over_load_scaler].
      simpl. repeat (apply lays_over_seq;
                     [apply lays_over_load_model_file; repeat constructor|]).
      apply lays_over_ret. }
    exists r, l. split; [done|]. intros self <-.
    unfold load_models. unfold mbind at 1, method_bind at 1, get_self.
    rewrite Hdir. apply Hrun.
  - exists (Ok tt), nothing_loaded. split; [apply expected_nothing|].
    intros self <-. rewrite overlay_nothing.
    by apply load_models_missing_directory.
Qed.

Lemma reload_models_state fs self :
  snd (reload_models fs self) = snd (load_models fs self).
Proof. unfold reload_models. by destruct (load_models fs self) as [[|] ?]. Qed.

Lemma load_models_idempotent fs self :
  load_models fs (snd (load_models fs self)) = load_models fs self.
Proof.
  destruct (load_models_lays_over fs (models_dir self)) as (r & l & _ & Hrun).
  rewrite (Hrun self eq_refl). simpl.
  rewrite (Hrun (overlay l self) eq_refl). by rewrite overlay_twice.
Qed.

(** X12. Reloading twice against the same file system is reloading once:
    the second reload gives the same answer and leaves the state of the
    first, whether the load succeeds or stops at a corrupt file. *)
Theorem reload_idempotent
    (fs : gmap string (gmap string blob)) (self : FraudModelService) :
  reload_models fs (snd (reload_models fs self)) = reload_models fs self.
Proof.
  rewrite reload_models_state. unfold reload_models.
  by rewrite load_models_idempotent.
Qed.

(** X13. Whether a reload succeeds does not depend on what the service
    holds: two services with the same models directory get the same
    verdict, success or the same exception, from the same file system. *)
Theorem reload_verdict_independent_of_state
    (fs : gmap string (gmap string blob)) (self self' : FraudModelService) :
  models_dir self = models_dir self' →
  fst (load_models fs self) = fst (load_models fs self').
Proof.
  intros Hdir.
  destruct (load_models_lays_over fs (models_dir self)) as (r & l & _ & Hrun).
  by rewrite (Hrun self eq_refl), (Hrun self' (eq_sym Hdir)).
Qed.

Lemma reload_verdict_independent_of_state_witness :
  fst (load_models pruned_directory started_on_trained)
  = fst (load_models pruned_directory misnamed_forest_service).
Proof.
  apply (reload_verdict_independent_of_state pruned_directory
           started_on_trained misnamed_forest_service).
  reflexivity.
Defined.

(** X14. A reload never unloads: whatever the file system holds, and even
    when the load raises, every model and scaler key held before is
    still held after, the count of models does not drop, and the
    models directory is the same. *)
Theorem reload_never_unloads
    (fs : gmap string (gmap string blob)) (self : FraudModelService) :
  (∀ k, is_Some (models self !! k) →
        is_Some (models (snd (reload_models fs self)) !! k))
  ∧ (∀ k, is_Some (scalers self !! k) →
          is_Some (scalers (snd (reload_models fs self)) !! k))
  ∧ (size (models self) ≤ size (models (snd (reload_models fs self))))%nat
  ∧ models_dir (snd (reload_models fs self)) = models_dir self.
Proof.
  rewrite reload_models_state.
  destruct (load_models_lays_over fs (models_dir self)) as (r & l & _ & Hrun).
  rewrite (Hrun self eq_refl). simpl.
  split; [|split; [|split; [|done]]].
  - intros k Hk. apply lookup_union_is_Some. by right.
  - intros k Hk. apply lookup_union_is_Some. by right.
  - rewrite <- !size_dom. apply subseteq_size.
    rewrite dom_union_L. set_solver.
Qed.

Lemma reachable_expected_keys (self : FraudModelService) :
  reachable self →
  (∀ k, is_Some (models self !! k) → k ∈ model_files)
  ∧ (∀ k, is_Some (scalers self !! k) → k = "standard").
Proof.
  induction 1 as [dir_name fs|fs self _ [IHm IHs]].
  - unfold init.
    destruct (load_models_lays_over fs dir_name) as (r & l & [Hm Hs] & Hrun).
    rewrite Hrun by done. simpl.
    split; intros k; rewrite (right_id_L ∅ (∪)); auto.
  - rewrite reload_models_state.
    destruct (load_models_lays_over fs (models_dir self))
      as (r & l & [Hm Hs] & Hrun).
    rewrite Hrun by done. simpl.
    split; intros k; rewrite lookup_union_is_Some; intros [H|H]; auto.
Qed.

Lemma reachable_unrecognized (self : FraudModelService) :
  reachable self →
  models self !! "random_forest" = None
  ∧ models self !! "xgboost" = None
  ∧ models self !! "isolation_forest" = None.
Proof.
  intros Hreach. destruct (reachable_expected_keys self Hreach) as [Hmodels _].
  assert (∀ k, k ∉ model_files → models self !! k = None) as Hnone.
  { intros k Hk. apply eq_None_not_Some. intros H. by apply Hk, Hmodels. }
  repeat split; apply Hnone; intros H;
    apply list_elem_of_In in H; simpl in H; intuition discriminate.
Qed.

(** X15. A service that only ever loads from disk holds models under the
    three file names only, a scaler under [standard] only, and at most
    three models; none of the names the predictor asks for is a key. *)
Theorem reachable_keys (self : FraudModelService) :
  reachable self →
  (∀ k, is_Some (models self !! k) → k ∈ model_files)
  ∧ (∀ k, is_Some (scalers self !! k) → k = "standard")
  ∧ (size (models self) ≤ 3)%nat
  ∧ models self !! "random_forest" = None
  ∧ models self !! "xgboost" = None
  ∧ models self !! "isolation_forest" = None.
Proof.
  intros Hreach.
  destruct (reachable_expected_keys self Hreach) as [Hmodels Hscalers].
  split; [done|]. split; [done|]. split; [|by apply reachable_unrecognized].
  rewrite <- size_dom.
  transitivity (size (list_to_set (C := gset string) model_files)).
  - apply subseteq_size. intros k Hk.
    apply elem_of_list_to_set, Hmodels. by apply elem_of_dom.
  - by vm_compute.
Qed.

Lemma reachable_keys_witness :
  reachable started_on_trained
  ∧ (size (models started_on_trained) ≤ 3)%nat
  ∧ models started_on_trained !! "random_forest" = None.
Proof.
  assert (reachable started_on_trained) as Hreach by constructor.
  split; [exact Hreach|].
  destruct (reachable_keys started_on_trained Hreach) as (_ & _ & Hsize & Hrf & _).
  by split.
Defined.

(** ** Corrupt files *)

Lemma pickle_load_raises b :
  raises (pickle_load b) → pickle_load b = Raise UnpicklingError.
Proof. by destruct b. Qed.

Lemma json_load_raises b :
  raises (json_load b) → json_load b = Raise JSONDecodeError.
Proof. by destruct b. Qed.

(** X17. A metadata file that does not parse aborts the load at once: the
    reload answers with status 500 and nothing is read, not even model
    and scaler files that are in good order. *)
Theorem reload_corrupt_metadata
    (fs : gmap string (gmap string blob)) (self : FraudModelService)
    (dir : gmap string blob) (b : blob) :
  fs !! models_dir self = Some dir →
  dir !! "metadata.json" = Some b →
  raises (json_load b) →
  reload_models fs self = (ReloadFailed JSONDecodeError 500, self).
Proof.
  intros Hdir Hb Hraise. apply json_load_raises in Hraise.
  unfold reload_models, load_models.
  unfold mbind at 1, method_bind at 1, get_self. rewrite Hdir.
  unfold mbind at 1, method_bind at 1, load_metadata. rewrite Hb.
  unfold mbind, method_bind, lift. by rewrite Hraise.
Qed.

Lemma load_metadata_keeps dir self :
  models (snd (load_metadata dir self)) = models self
  ∧ scalers (snd (load_metadata dir self)) = scalers self.
Proof.
  unfold load_metadata. destruct (dir !! "metadata.json") as [file|]; [|done].
  unfold mbind, method_bind, lift. by destruct (json_load file).
Qed.

Lemma load_metadata_Ok dir self :
  (∀ b, dir !! "metadata.json" = Some b → ¬ raises (json_load b)) →
  fst (load_metadata dir self) = Ok tt.
Proof.
  intros Hmd. unfold load_metadata.
  destruct (dir !! "metadata.json") as [file|]; [|done].
  specialize (Hmd file eq_refl).
  unfold mbind, method_bind, lift. by destruct (json_load file).
Qed.

Lemma load_model_file_keeps dir model_file self :
  scalers (snd (load_model_file dir model_file self)) = scalers self
  ∧ ∀ k, k ≠ model_name model_file →
         models (snd (load_model_file dir model_file self)) !! k = models self !! k.
Proof.
  unfold load_model_file. destruct (dir !! model_file) as [file|]; [|done].
  unfold mbind, method_bind, lift.
  destruct (pickle_load file); [|done]. simpl.
  split; [done|]. intros k Hk. by rewrite lookup_insert_ne.
Qed.

Lemma load_model_file_corrupt dir model_file b self :
  dir !! model_file = Some b → raises (pickle_load b) →
  load_model_file dir model_file self = (Raise UnpicklingError, self).
Proof.
  intros Hb Hraise. apply pickle_load_raises in Hraise.
  unfold load_model_file. rewrite Hb.
  unfold mbind, method_bind, lift. by rewrite Hraise.
Qed.

Lemma load_model_file_verdict dir model_file self :
  fst (load_model_file dir model_file self) = Ok tt
  ∨ fst (load_model_file dir model_file self) = Raise UnpicklingError.
Proof.
  unfold load_model_file. destruct (dir !! model_file) as [file|]; [|by left].
  unfold mbind, method_bind, lift. destruct file; simpl; auto.
Qed.

(** X18. A model file that does not unpickle stops the load where it
    stands: the reload answers with status 500, the corrupt file's key
    and the keys of the model files after it in the fixed order keep
    what they held, and the scaler file is not read. *)
Theorem reload_stops_at_corrupt_model
    (fs : gmap string (gmap string blob)) (self : FraudModelService)
    (dir : gmap string blob) (b : blob) (i j : nat) (f g : string) :
  fs !! models_dir self = Some dir →
  (∀ b0, dir !! "metadata.json" = Some b0 → ¬ raises (json_load b0)) →
  model_files !! i = Some f →
  dir !! f = Some b →
  raises (pickle_load b) →
  model_files !! j = Some g → (i ≤ j)%nat →
  ∃ self',
    reload_models fs self = (ReloadFailed UnpicklingError 500, self')
    ∧ models self' !! g = models self !! g
    ∧ scalers self' = scalers self.
Proof.
  intros Hdir Hmd Hf Hb Hraise Hg Hij.
  unfold reload_models, load_models.
  unfold mbind at 1, method_bind at 1, get_self. rewrite Hdir.
  unfold mbind at 1, method_bind at 1.
  pose proof (load_metadata_Ok dir self Hmd) as Hok.
  pose proof (load_metadata_keeps dir self) as [Hm0 Hs0].
  destruct (load_metadata dir self) as [r0 s0]. simpl in Hok, Hm0, Hs0. subst r0.
  unfold mbind at 1, method_bind at 1. cbn [for_each model_files].
  unfold mbind at 1, method_bind at 1.
  pose proof (load_model_file_verdict dir "random_forest.pkl" s0) as Hv1.
  pose proof (load_model_file_keeps dir "random_forest.pkl" s0) as [Hs1 Hm1].
  pose proof (load_model_file_corrupt dir "random_forest.pkl" b s0) as Hc1.
  destruct (load_model_file dir "random_forest.pkl" s0) as [r1 s1].
  simpl in Hv1, Hs1, Hm1.
  destruct Hv1 as [-> | ->].
  2: { eexists. split; [reflexivity|]. simpl.
       destruct i as [|[|[|i]]]; destruct j as [|[|[|j]]];
         simplify_eq/=; try lia;
         first [specialize (Hc1 Hb Hraise); simplify_eq; by rewrite ?Hm0, ?Hs0
               | split; [rewrite Hm1 by done; congruence | congruence]]. }
  destruct i as [|i]; [simplify_eq/=; by specialize (Hc1 Hb Hraise)|].
  destruct j as [|j]; [lia|]. clear Hc1.
  unfold mbind at 1, method_bind at 1.
  pose proof (load_model_file_verdict dir "xgboost.pkl" s1) as Hv2.
  pose proof (load_model_file_keeps dir "xgboost.pkl" s1) as [Hs2 Hm2].
  pose proof (load_model_file_corrupt dir "xgboost.pkl" b s1) as Hc2.
  destruct (load_model_file dir "xgboost.pkl" s1) as [r2 s2].
  simpl in Hv2, Hs2, Hm2.
  destruct Hv2 as [-> | ->].
  2: { eexists. split; [reflexivity|]. simpl.
       destruct i as [|[|i]]; destruct j as [|[|j]];
         simplify_eq/=; try lia;
         first [specialize (Hc2 Hb Hraise); simplify_eq;
                split; [rewrite Hm1 by done; congruence | congruence]
               | split; [rewrite Hm2, Hm1 by done; congruence | congruence]]. }
  destruct i as [|i]; [simplify_eq/=; by specialize (Hc2 Hb Hraise)|].
  destruct j as [|j]; [lia|]. clear Hc2.
  unfold mbind at 1, method_bind at 1.
  pose proof (load_model_file_corrupt dir "isolation_forest.pkl" b s2) as Hc3.
  destruct i as [|i]; [|by destruct i].
  destruct j as [|j]; [|by destruct j]. simplify_eq/=.
  rewrite (Hc3 Hb Hraise). eexists. split; [reflexivity|]. simpl.
  split; [|congruence].
  rewrite Hm2, Hm1 by done. congruence.
Qed.

Lemma reload_corrupt_metadata_witness :
  reload_models corrupt_metadata_directory fresh_service
  = (ReloadFailed JSONDecodeError 500, fresh_service).
Proof.
  apply (reload_corrupt_metadata corrupt_metadata_directory fresh_service
           (<["metadata.json" := Corrupt]>
              (<["random_forest.pkl" := Pickled (stub_classifier 0.9)]> ∅))
           Corrupt).
  - reflexivity.
  - reflexivity.
  - exact I.
Defined.

Lemma reload_stops_at_corrupt_model_witness :
  ∃ self',
    reload_models corrupt_xgboost_directory fresh_service
    = (ReloadFailed UnpicklingError 500, self')
    ∧ models self' !! "isolation_forest.pkl" = None
    ∧ scalers self' = ∅.
Proof.
  refine (reload_stops_at_corrupt_model corrupt_xgboost_directory fresh_service
            _ Corrupt 1 2 "xgboost.pkl" "isolation_forest.pkl" _ _ _ _ _ _ _).
  - reflexivity.
  - intros b0 Hb0. vm_compute in Hb0. discriminate.
  - reflexivity.
  - reflexivity.
  - exact I.
  - reflexivity.
  - lia.
Defined.

(** ** What a service loaded from disk can answer *)

Lemma predictions_unrecognized (self_models : gmap string estimator) X :
  self_models !! "random_forest" = None →
  self_models !! "xgboost" = None →
  self_models !! "isolation_forest" = None →
  predictions self_models X = Ok [].
Proof. intros H1 H2 H3. unfold predictions. by rewrite H1, H2, H3. Qed.

(** X16. Once extraction is set aside: for a service that only ever loads
    from disk, lines 79-130 find no model under a name they know,
    whatever was loaded, and, when the scaler (if any) transforms the
    features, return score 0, LOW, ALLOW with no entries. *)
Theorem reachable_score_is_zero
    (self : FraudModelService) (features0 : ndarray) :
  reachable self →
  (∀ scaler, scalers self !! "standard" = Some scaler →
             ∃ f scaled, transform scaler = Some f ∧ f features0 = Ok scaled) →
  score self features0
  = Ok (Prediction (zero_result (length (py_iter (feature_names self))))).
Proof.
  intros Hreach Hscaler.
  destruct (reachable_unrecognized self Hreach) as (H1 & H2 & H3).
  unfold score.
  destruct (scalers self !! "standard") as [scaler|].
  - destruct (Hscaler scaler eq_refl) as (f & scaled & Hf & Hscaled).
    rewrite Hf. simpl. rewrite Hscaled. simpl.
    by rewrite predictions_unrecognized.
  - simpl. by rewrite predictions_unrecognized.
Qed.

Lemma reachable_score_is_zero_witness :
  score started_on_trained (np_array [PyFloat 250; PyInt 12])
  = Ok (Prediction (zero_result 2)).
Proof.
  apply (reachable_score_is_zero started_on_trained
           (np_array [PyFloat 250; PyInt 12])).
  - constructor.
  - intros scaler Hsc. vm_compute in Hsc. injection Hsc as <-.
    by eexists _, _.
Defined.

(** ** [predict_fraud] and its route: every outcome *)

Lemma comprehension_outcome (transaction_data : gmap string pyval) names :
  (Forall recognized names
   ∧ ∃ vs, comprehension (features transaction_data) names = Ok vs)
  ∨ ∃ name,
      name ∈ names ∧ ¬ recognized name
      ∧ comprehension (features transaction_data) names = Raise (KeyError name).
Proof.
  induction names as [|name names IH].
  - left. split; [constructor|]. by eexists.
  - simpl. unfold PyDict.getitem.
    destruct (PyDict.get name (features transaction_data)) as [v|] eqn:Hget.
    + assert (recognized name) as Hname.
      { destruct (decide (recognized name)) as [|Hnot]; [done|].
        by rewrite features_get_unrecognized in Hget. }
      destruct IH as [[Hall [vs Hvs]]|(bad & Hin & Hbad & Hraise)].
      * left. split; [by constructor|]. rewrite Hvs. by eexists.
      * right. exists bad. split; [by right|]. split; [done|].
        by rewrite Hraise.
    + right. exists name. split; [by left|]. split; [|done].
      intros Hname. destruct (recognized_default _ Hname) as [d Hd].
      by rewrite (features_get _ _ _ Hd) in Hget.
Qed.

Lemma extract_features_outcome
    (self : FraudModelService) (transaction_data : gmap string pyval) :
  (Forall recognized (py_iter (feature_names self))
   ∧ extract_features self transaction_data
     = Raise (AttributeError "numpy.ndarray" "resape"))
  ∨ ∃ name,
      name ∈ py_iter (feature_names self) ∧ ¬ recognized name
      ∧ extract_features self transaction_data = Raise (KeyError name).
Proof.
  unfold extract_features, feature_vector.
  destruct (comprehension_outcome transaction_data (py_iter (feature_names self)))
    as [[Hall [vs Hvs]]|(bad & Hin & Hbad & Hraise)].
  - left. split; [done|]. by rewrite Hvs.
  - right. exists bad. by rewrite Hraise.
Qed.

(** X10. [predict_fraud] has three outcomes and a scored prediction is none
    of them: the "no models loaded" dict exactly when no model is
    loaded; otherwise [KeyError] for a schema name that is not
    recognized, or [AttributeError] from line 69 when all are. *)
Theorem predict_fraud_outcomes
    (self : FraudModelService) (transaction_data : gmap string pyval) :
  (models self = ∅
   ∧ predict_fraud self transaction_data = Ok no_models_response)
  ∨ (models self ≠ ∅
     ∧ Forall recognized (py_iter (feature_names self))
     ∧ predict_fraud self transaction_data
       = Raise (AttributeError "numpy.ndarray" "resape"))
  ∨ (models self ≠ ∅
     ∧ ∃ name,
         name ∈ py_iter (feature_names self) ∧ ¬ recognized name
         ∧ predict_fraud self transaction_data = Raise (KeyError name)).
Proof.
  unfold predict_fraud.
  destruct (decide (models self = ∅)) as [Hempty|Hloaded]; [by left|].
  right.
  destruct (extract_features_outcome self transaction_data)
    as [[Hall ->]|(bad & Hin & Hbad & ->)].
  - left. by repeat split.
  - right. split; [done|]. by exists bad.
Qed.

(** X11. The [/predict] route never answers with a scored prediction: an
    empty body is rejected with status 400, a service without models
    answers the "no models loaded" dict, and with any model loaded the
    answer is a failure with status 500. *)
Theorem predict_fraud_route_outcomes
    (model_service : FraudModelService) (transaction_data : gmap string pyval) :
  (transaction_data = ∅
   ∧ predict_fraud_route model_service transaction_data
     = PredictRejected "No transaction data provided" 400)
  ∨ (transaction_data ≠ ∅ ∧ models model_service = ∅
     ∧ predict_fraud_route model_service transaction_data
       = PredictOk no_models_response)
  ∨ (transaction_data ≠ ∅ ∧ models model_service ≠ ∅
     ∧ ∃ e,
         predict_fraud_route model_service transaction_data = PredictFailed e 500
         ∧ (e = AttributeError "numpy.ndarray" "resape" ∨ ∃ name, e = KeyError name)).
Proof.
  unfold predict_fraud_route, predict_fraud.
  destruct (decide (transaction_data = ∅)) as [Hbody|Hbody]; [by left|].
  right.
  destruct (decide (models model_service = ∅)) as [Hempty|Hloaded];
    [by left|].
  right. split; [done|]. split; [done|].
  destruct (extract_features_outcome model_service transaction_data)
    as [[_ ->]|(bad & _ & _ & ->)]; simpl; eexists; (split; [done|]).
  - by left.
  - right. by eexists.
Qed.

(** ** Feature importance *)

Lemma insert_desc_perm x l : insert_desc x l ≡ₚ x :: l.
Proof.
  induction l as [|y l IH]; simpl; [done|].
  destruct (Qle_bool (snd x) (snd y)); [|done].
  rewrite IH. apply Permutation_swap.
Qed.

Lemma sorted_desc_perm items : sorted_desc items ≡ₚ items.
Proof.
  unfold sorted_desc.
  assert (∀ acc, foldl (fun acc x => insert_desc x acc) acc items
                 ≡ₚ acc ++ items) as Hgen.
  { induction items as [|x items IH]; intros acc; simpl.
    - by rewrite app_nil_r.
    - rewrite IH, insert_desc_perm. simpl. apply Permutation_middle. }
  apply Hgen.
Qed.

Lemma insert_desc_HdRel x y l :
  (snd x <= snd y)%Q →
  HdRel (fun a b => snd b <= snd a)%Q y l →
  HdRel (fun a b => snd b <= snd a)%Q y (insert_desc x l).
Proof.
  intros Hxy Hhd. destruct l as [|z l]; simpl; [by constructor|].
  inversion_clear Hhd.
  destruct (Qle_bool (snd x) (snd z)); by constructor.
Qed.

Lemma insert_desc_sorted x l :
  Sorted (fun a b => snd b <= snd a)%Q l →
  Sorted (fun a b => snd b <= snd a)%Q (insert_desc x l).
Proof.
  induction 1 as [|y l Hsorted IH Hhd]; simpl.
  - by repeat constructor.
  - destruct (Qle_bool (snd x) (snd y)) eqn:E.
    + apply Qle_bool_iff in E. constructor; [done|].
      by apply insert_desc_HdRel.
    + apply Qle_bool_false in E. constructor; [by constructor|].
      constructor. by apply Qlt_le_weak.
Qed.

Lemma sorted_desc_sorted items :
  Sorted (fun a b => snd b <= snd a)%Q (sorted_desc items).
Proof.
  unfold sorted_desc.
  assert (∀ acc, Sorted (fun a b => snd b <= snd a)%Q acc →
                 Sorted (fun a b => snd b <= snd a)%Q
                   (foldl (fun acc x => insert_desc x acc) acc items)) as Hgen.
  { induction items as [|x items IH]; intros acc Hacc; simpl; [done|].
    by apply IH, insert_desc_sorted. }
  apply Hgen. constructor.
Qed.

Lemma set_fresh {V} (d : PyDict.t V) k v :
  k ∉ PyDict.keys d → PyDict.set k v d = (d ++ [(k, v)])%list.
Proof.
  induction d as [|[k' w] d IH]; simpl; [done|]. intros Hnot.
  apply not_elem_of_cons in Hnot as [Hne Hnot].
  destruct (String.eqb k' k) eqn:E.
  - apply String.eqb_eq in E. congruence.
  - by rewrite IH.
Qed.

Lemma keys_set {V} (d : PyDict.t V) k v :
  PyDict.keys (PyDict.set k v d)
  = if decide (k ∈ PyDict.keys d) then PyDict.keys d
    else (PyDict.keys d ++ [k])%list.
Proof.
  induction d as [|[k' w] d IH].
  - destruct (decide (k ∈ PyDict.keys [])) as [Hin|Hin]; [|done].
    by apply elem_of_nil in Hin.
  - change (PyDict.keys ((k', w) :: d)) with (k' :: PyDict.keys d).
    simpl. destruct (String.eqb k' k) eqn:E.
    + apply String.eqb_eq in E. subst k'. clear IH.
      destruct (decide (k ∈ k :: PyDict.keys d)) as [Hin|Hin]; [done|].
      destruct Hin. apply list_elem_of_here.
    + apply String.eqb_neq in E.
      change (PyDict.keys ((k', w) :: PyDict.set k v d))
        with (k' :: PyDict.keys (PyDict.set k v d)).
      rewrite IH. clear IH.
      destruct (decide (k ∈ PyDict.keys d)) as [Hin|Hin];
        destruct (decide (k ∈ k' :: PyDict.keys d)) as [Hin'|Hin'];
        try done.
      * destruct Hin'. by apply list_elem_of_further.
      * apply elem_of_cons in Hin' as [->|Hin']; done.
Qed.

Lemma nodup_keys_set {V} (d : PyDict.t V) k v :
  NoDup (PyDict.keys d) → NoDup (PyDict.keys (PyDict.set k v d)).
Proof.
  intros Hd. rewrite keys_set.
  destruct (decide (k ∈ PyDict.keys d)); [done|].
  apply NoDup_app. split; [done|]. split; [|apply NoDup_singleton].
  intros x Hx Hx'. apply list_elem_of_singleton in Hx'. by subst x.
Qed.

Lemma foldl_set_nodup {V} (acc pairs : list (string * V)) :
  NoDup (PyDict.keys acc) →
  NoDup (PyDict.keys (foldl (fun d '(k, v) => PyDict.set k v d) acc pairs)).
Proof.
  revert acc. induction pairs as [|[k v] pairs IH]; intros acc Hacc; simpl;
    [done|]. by apply IH, nodup_keys_set.
Qed.

Lemma foldl_set_keys {V} (acc pairs : list (string * V)) k :
  k ∈ PyDict.keys (foldl (fun d '(k, v) => PyDict.set k v d) acc pairs) →
  k ∈ PyDict.keys acc ∨ k ∈ PyDict.keys pairs.
Proof.
  revert acc. induction pairs as [|[k' v] pairs IH]; intros acc; simpl;
    [auto|].
  intros Hk. destruct (IH _ Hk) as [Hk'|Hk'].
  - rewrite keys_set in Hk'.
    destruct (decide (k' ∈ PyDict.keys acc)); [by left|].
    apply elem_of_app in Hk' as [Hk'|Hk']; [by left|].
    apply list_elem_of_singleton in Hk'. subst k. right. apply list_elem_of_here.
  - right. by apply list_elem_of_further.
Qed.

Lemma foldl_set_fresh {V} (acc pairs : list (string * V)) :
  NoDup (PyDict.keys (acc ++ pairs)%list) →
  foldl (fun d '(k, v) => PyDict.set k v d) acc pairs = (acc ++ pairs)%list.
Proof.
  revert acc. induction pairs as [|[k v] pairs IH]; intros acc Hall; simpl.
  - by rewrite app_nil_r.
  - assert (k ∉ PyDict.keys acc) as Hfresh.
    { unfold PyDict.keys in *. rewrite fmap_app in Hall. simpl in Hall.
      apply NoDup_app in Hall as (_ & Hdisj & _).
      intros Hk. apply (Hdisj k Hk). apply list_elem_of_here. }
    rewrite set_fresh by done.
    rewrite IH; [by rewrite <- app_assoc|].
    by rewrite <- app_assoc.
Qed.

Lemma dict_of_pairs_nodup {V} (pairs : list (string * V)) :
  NoDup (PyDict.keys pairs) → dict_of_pairs pairs = pairs.
Proof. intros H. unfold dict_of_pairs. by rewrite foldl_set_fresh. Qed.

Lemma nodup_keys_zip {V} (names : list string) (values : list V) :
  NoDup names → NoDup (PyDict.keys (zip names values)).
Proof.
  intros Hnames. revert values.
  induction Hnames as [|name names Hnot _ IH]; intros [|v values]; simpl;
    try apply NoDup_nil_2.
  apply NoDup_cons. split; [|apply IH].
  intros Hin. apply Hnot. unfold PyDict.keys in Hin.
  apply list_elem_of_fmap in Hin as [[k w] [-> Hin]].
  by apply elem_of_zip_l in Hin.
Qed.

Section FeatureImportanceFacts.

Variable feature_importances_ : estimator → option (list Q).

(** X19. For a loaded model that has importances, the answer pairs schema
    names with importances, largest first, each name once; it is the
    dict of the zipped pairs in another order, and exactly the zipped
    pairs when the schema has no repeated name. *)
Theorem get_feature_importance_sorted
    (self : FraudModelService) (model_name : string)
    (model : estimator) (importances : list Q) :
  models self !! model_name = Some model →
  feature_importances_ model = Some importances →
  Sorted (fun a b => snd b <= snd a)%Q
    (get_feature_importance feature_importances_ self model_name)
  ∧ NoDup (PyDict.keys (get_feature_importance feature_importances_ self model_name))
  ∧ (∀ k, k ∈ PyDict.keys (get_feature_importance feature_importances_ self model_name)
          → k ∈ py_iter (feature_names self))
  ∧ get_feature_importance feature_importances_ self model_name
    ≡ₚ dict_of_pairs (zip (py_iter (feature_names self)) importances)
  ∧ (NoDup (py_iter (feature_names self)) →
     get_feature_importance feature_importances_ self model_name
     ≡ₚ zip (py_iter (feature_names self)) importances).
Proof.
  intros Hmodel Himp. unfold get_feature_importance. rewrite Hmodel, Himp.
  set (pairs := zip (py_iter (feature_names self)) importances).
  assert (NoDup (PyDict.keys (dict_of_pairs pairs))) as Hdict
    by (apply foldl_set_nodup, NoDup_nil_2).
  assert (NoDup (PyDict.keys (sorted_desc (dict_of_pairs pairs)))) as Hsorted.
  { unfold PyDict.keys. by rewrite sorted_desc_perm. }
  rewrite (dict_of_pairs_nodup _ Hsorted).
  split; [apply sorted_desc_sorted|]. split; [done|]. split; [|split].
  - intros k Hk. unfold PyDict.keys in Hk. rewrite sorted_desc_perm in Hk.
    apply foldl_set_keys in Hk as [Hk|Hk]; [by apply elem_of_nil in Hk|].
    apply list_elem_of_fmap in Hk as [[k' w] [-> Hk]].
    by apply elem_of_zip_l in Hk.
  - apply sorted_desc_perm.
  - intros Hnames. rewrite sorted_desc_perm.
    by rewrite dict_of_pairs_nodup by by apply nodup_keys_zip.
Qed.

(** X20. A service that only ever loads from disk has no importances to
    show for any of the three model names, and none for a query that
    names no model. *)
Theorem reachable_feature_importance_empty
    (self : FraudModelService) (args : gmap string string) :
  reachable self →
  get_feature_importance feature_importances_ self "random_forest" = []
  ∧ get_feature_importance feature_importances_ self "xgboost" = []
  ∧ get_feature_importance feature_importances_ self "isolation_forest" = []
  ∧ (args !! "model" = None →
     get_feature_importance_route feature_importances_ self args
     = ("random_forest", [])).
Proof.
  intros Hreach.
  destruct (reachable_unrecognized self Hreach) as (H1 & H2 & H3).
  unfold get_feature_importance_route, get_feature_importance, dict_get_default.
  rewrite H1, H2, H3. repeat split. intros ->. by rewrite H1.
Qed.

End FeatureImportanceFacts.

Lemma get_feature_importance_sorted_witness :
  get_feature_importance stub_importances three_feature_service "random_forest.pkl"
  = [("hour", 0.5%Q); ("day_of_week", 0.3%Q); ("amount", 0.2%Q)]
  ∧ Sorted (fun a b => snd b <= snd a)%Q
      (get_feature_importance stub_importances three_feature_service
         "random_forest.pkl").
Proof.
  split; [reflexivity|].
  apply (get_feature_importance_sorted stub_importances three_feature_service
           "random_forest.pkl" (stub_classifier 0.9) [0.2%Q; 0.5%Q; 0.3%Q]);
    reflexivity.
Defined.

Lemma reachable_feature_importance_empty_witness :
  get_feature_importance_route stub_importances started_on_trained ∅
  = ("random_forest", []).
Proof.
  apply (reachable_feature_importance_empty stub_importances
           started_on_trained ∅); [constructor | reflexivity].
Defined.

(** ** The trainer's [save_models], and the service started on its output *)

Lemma list_ascii_of_string_app (s t : string) :
  list_ascii_of_string (s ++ t)
  = (list_ascii_of_string s ++ list_ascii_of_string t)%list.
Proof. induction s as [|c s IH]; simpl; [done|]. by rewrite IH. Qed.

Lemma append_inj_r (s1 s2 t : string) : s1 ++ t = s2 ++ t → s1 = s2.
Proof.
  intros H. apply (f_equal list_ascii_of_string) in H.
  rewrite !list_ascii_of_string_app in H. apply app_inv_tail in H.
  rewrite <- (string_of_list_ascii_of_string s1),
          <- (string_of_list_ascii_of_string s2).
  by rewrite H.
Qed.

Lemma pkl_is_not_metadata (name : string) : name ++ ".pkl" ≠ "metadata.json".
Proof.
  intros H. apply (f_equal list_ascii_of_string) in H.
  rewrite list_ascii_of_string_app in H.
  apply (f_equal reverse) in H. rewrite reverse_app in H.
  vm_compute in H. discriminate.
Qed.

Lemma dump_all_other suffix items dir file :
  (∀ name, name ∈ PyDict.keys items → file ≠ name ++ suffix) →
  Trainer.dump_all suffix items dir !! file = dir !! file.
Proof.
  revert dir. induction items as [|[name obj] items IH]; intros dir Hfile;
    [done|].
  unfold Trainer.dump_all in *. simpl. rewrite IH.
  - apply lookup_insert_ne. intros Heq. symmetry in Heq. revert Heq.
    apply Hfile. apply list_elem_of_here.
  - intros name' Hin. apply Hfile. by apply list_elem_of_further.
Qed.

Lemma dump_all_written suffix items dir name obj :
  NoDup (PyDict.keys items) →
  (name, obj) ∈ items →
  Trainer.dump_all suffix items dir !! (name ++ suffix) = Some (Pickled obj).
Proof.
  revert dir. induction items as [|[name' obj'] items IH]; intros dir Hnodup Hin.
  - by apply elem_of_nil in Hin.
  - change (PyDict.keys ((name', obj') :: items))
      with (name' :: PyDict.keys items) in Hnodup.
    apply NoDup_cons in Hnodup as [Hfresh Hnodup].
    apply elem_of_cons in Hin as [[= <- <-]|Hin].
    + change (Trainer.dump_all suffix ((name, obj) :: items) dir)
        with (Trainer.dump_all suffix items (<[name ++ suffix := Pickled obj]> dir)).
      rewrite dump_all_other; [apply lookup_insert_eq|].
      intros other Hother Heq. apply append_inj_r in Heq. by subst other.
    + change (Trainer.dump_all suffix ((name', obj') :: items) dir)
        with (Trainer.dump_all suffix items (<[name' ++ suffix := Pickled obj']> dir)).
      by apply IH.
Qed.

(** X21. [save_models] writes every model to [<name>.pkl] and then stops
    with [AttributeError] at line 174: no scaler file and no
    [metadata.json] is written, and every file that is not a model's
    is left as it was, a metadata file of an earlier run included. *)
Theorem save_models_writes_models_only
    (trainer : Trainer.FraudModelTrainer) (models_dir now : string)
    (fs : gmap string (gmap string blob)) :
  NoDup (PyDict.keys (Trainer.models trainer)) →
  ∃ dir,
    Trainer.save_models trainer models_dir now fs
    = (Raise (AttributeError "dict" "item"), <[models_dir := dir]> fs)
    ∧ (∀ name obj,
         (name, obj) ∈ Trainer.models trainer →
         dir !! (name ++ ".pkl") = Some (Pickled obj))
    ∧ (∀ file,
         (∀ name, name ∈ PyDict.keys (Trainer.models trainer) →
                  file ≠ name ++ ".pkl") →
         dir !! file = default ∅ (fs !! models_dir) !! file)
    ∧ dir !! "metadata.json" = default ∅ (fs !! models_dir) !! "metadata.json".
Proof.
  intros Hnodup. eexists. split; [reflexivity|]. split; [|split].
  - intros name obj Hin. by apply dump_all_written.
  - intros file Hfile. by apply dump_all_other.
  - apply dump_all_other. intros name _ Heq. symmetry in Heq.
    by apply pkl_is_not_metadata in Heq.
Qed.

(** X22. Trainer and service end to end: after [save_models] of a trainer
    that holds the three models under their names, whatever its scalers
    and schema, the service started on the directory loads all three,
    under the file names, and has no scaler, no metadata and an empty
    schema. *)
Theorem service_after_training
    (rf xgb iso : estimator) (trainer_scalers : PyDict.t estimator)
    (names : list string) (now : string) :
  ∃ self,
    init "models"
      (snd (Trainer.save_models (trained_trainer rf xgb iso trainer_scalers names)
              "models" now ∅))
    = (Ok tt, self)
    ∧ models self
      = <["random_forest.pkl" := rf]>
          (<["xgboost.pkl" := xgb]> (<["isolation_forest.pkl" := iso]> ∅))
    ∧ scalers self = ∅
    ∧ metadata self = ∅
    ∧ feature_names self = JList [].
Proof. eexists. split; [reflexivity|]. repeat split. Qed.

Lemma save_models_writes_models_only_witness :
  ∃ dir,
    Trainer.save_models
      (trained_trainer (stub_classifier 0.9) (stub_classifier 0.2)
         (stub_detector (-0.3) (-1)) [("standard", stub_scaler)] ["amount"])
      "models" "2024-01-01" ∅
    = (Raise (AttributeError "dict" "item"), <["models" := dir]> ∅)
    ∧ dir !! "xgboost.pkl" = Some (Pickled (stub_classifier 0.2))
    ∧ dir !! "metadata.json" = None.
Proof.
  destruct (save_models_writes_models_only
              (trained_trainer (stub_classifier 0.9) (stub_classifier 0.2)
                 (stub_detector (-0.3) (-1)) [("standard", stub_scaler)] ["amount"])
              "models" "2024-01-01" ∅)
    as (dir & Hsave & Hwritten & _ & Hmetadata).
  - repeat (apply NoDup_cons; split;
            [intros H; apply list_elem_of_In in H; simpl in H;
             intuition discriminate|]).
    apply NoDup_nil_2.
  - exists dir. split; [exact Hsave|]. split.
    + apply (Hwritten "xgboost"). apply list_elem_of_In. simpl. tauto.
    + rewrite Hmetadata. reflexivity.
Defined.

(** ** The trainer's evaluation *)

Lemma column1_head rows probs :
  Evaluation.column1 rows = Ok probs →
  length probs = length rows
  ∧ ∀ row, rows !! 0%nat = Some row →
           ∃ p, seq_getitem row 1 = Ok p ∧ probs !! 0%nat = Some p.
Proof.
  revert probs. induction rows as [|row rows IH]; intros probs; simpl.
  - intros [= <-]. split; [done|]. intros row H. discriminate.
  - destruct (seq_getitem row 1) as [p|] eqn:Hp; [|done]. simpl.
    destruct (Evaluation.column1 rows) as [ps|] eqn:Hps; [|done]. simpl.
    intros [= <-]. split.
    + simpl. f_equal. by apply IH.
    + intros row' [= <-]. by exists p.
Qed.

(** X23. Serving and evaluation count the same votes: for the first row of
    a batch, the probability and vote (or the anomaly score and flag)
    that the service reports for a model are the ones the trainer's
    evaluation computed for it. *)
Theorem evaluation_agrees_with_service
    (model : estimator) (X : ndarray) (flags : list Z) (values : list Q)
    (entry : model_prediction) :
  Evaluation.y_pred model X = Ok (flags, values) →
  (is_Some (predict_proba model) →
   probability_entry model X = Ok entry →
   length flags = length values
   ∧ ∃ p c, entry = Probability p c
            ∧ values !! 0%nat = Some p ∧ flags !! 0%nat = Some c)
  ∧ (predict_proba model = None →
     anomaly_entry model X = Ok entry →
     ∃ score a, entry = Anomaly score a
                ∧ values !! 0%nat = Some score ∧ flags !! 0%nat = Some a).
Proof.
  unfold Evaluation.y_pred, probability_entry, anomaly_entry, call_method.
  destruct (predict_proba model) as [f|].
  - destruct (f X) as [rows|]; [|done]. simpl.
    destruct (Evaluation.column1 rows) as [probs|] eqn:Hcol; [|done]. simpl.
    intros [= <- <-]. split; [|by intros [=]]. intros _.
    apply column1_head in Hcol as [Hlen Hhead].
    unfold seq_getitem at 1.
    destruct rows as [|row rows]; [done|]. simpl.
    destruct (Hhead row eq_refl) as (p & Hp & Hp0).
    unfold seq_getitem in Hp. simpl in Hp. rewrite Hp. simpl.
    intros [= <-]. split; [by rewrite length_map|].
    eexists _, _. split; [done|]. split; [done|].
    destruct probs as [|p' probs]; [done|]. by injection Hp0 as ->.
  - intros Hy. split; [by intros [? [=]]|]. intros _. revert Hy.
    destruct (predict model) as [g|]; [|done].
    destruct (g X) as [labels|]; [|done]. simpl.
    destruct (decision_function model) as [h|]; [|done].
    destruct (h X) as [scores|]; [|done]. simpl.
    intros [= <- <-].
    destruct scores as [|score scores]; [done|]. simpl.
    destruct labels as [|label labels]; [done|]. simpl.
    intros [= <-]. by eexists _, _.
Qed.

Lemma evaluation_agrees_with_service_witness :
  ∃ p c,
    Probability 0.9 1 = Probability p c
    ∧ [0.9%Q] !! 0%nat = Some p ∧ [1%Z] !! 0%nat = Some c.
Proof.
  refine (proj2 (proj1 (evaluation_agrees_with_service (stub_classifier 0.9)
                          (np_array [PyInt 0]) [1%Z] [0.9%Q]
                          (Probability 0.9 1) _) _ _)).
  - reflexivity.
  - by eexists.
  - reflexivity.
Defined.

Lemma argmax_from_spec (pre l : list Q) (best : Q) (best_index : nat) :
  pre !! best_index = Some best →
  (∀ j y, pre !! j = Some y → (y <= best)%Q) →
  (∀ j y, (j < best_index)%nat → pre !! j = Some y → (y < best)%Q) →
  ∃ m,
    (pre ++ l)%list !! Evaluation.argmax_from best best_index (length pre) l = Some m
    ∧ (∀ j y, (pre ++ l)%list !! j = Some y → (y <= m)%Q)
    ∧ (∀ j y, (j < Evaluation.argmax_from best best_index (length pre) l)%nat →
              (pre ++ l)%list !! j = Some y → (y < m)%Q).
Proof.
  revert pre best best_index.
  induction l as [|x l IH]; intros pre best best_index Hbest Hmax Hfirst; simpl.
  - rewrite app_nil_r. by exists best.
  - assert (length (pre ++ [x]) = S (length pre)) as Hlen
      by (rewrite length_app; simpl; lia).
    replace (pre ++ x :: l)%list with ((pre ++ [x]) ++ l)%list
      by (by rewrite <- app_assoc).
    rewrite <- Hlen.
    destruct (Qgt_bool x best) eqn:E.
    + apply Qgt_bool_true in E. apply IH.
      * rewrite lookup_app_r by lia. by rewrite Nat.sub_diag.
      * intros j y Hy. apply lookup_app_Some in Hy as [Hy|[_ Hy]].
        -- apply Qlt_le_weak. eapply Qle_lt_trans; [by eapply Hmax|done].
        -- apply list_lookup_singleton_Some in Hy as [_ <-]. apply Qle_refl.
      * intros j y Hj Hy. rewrite lookup_app_l in Hy by done.
        eapply Qle_lt_trans; [by eapply Hmax|done].
    + apply Qgt_bool_false in E. apply IH.
      * rewrite lookup_app_l; [done|]. by eapply lookup_lt_Some.
      * intros j y Hy. apply lookup_app_Some in Hy as [Hy|[_ Hy]].
        -- by eapply Hmax.
        -- by apply list_lookup_singleton_Some in Hy as [_ <-].
      * intros j y Hj Hy. apply (Hfirst j y Hj).
        rewrite lookup_app_l in Hy; [done|].
        apply lookup_lt_Some in Hbest. lia.
Qed.

Lemma seq_getitem_lookup {A} (l : list A) (i : nat) :
  seq_getitem l i = match l !! i with
                    | Some a => Ok a
                    | None => Raise IndexError
                    end.
Proof.
  unfold seq_getitem. revert i.
  induction l as [|a l IH]; intros [|i]; simpl; by try done.
Qed.

(** X24. The operating point: for a non-empty list of F1 scores the index
    chosen is the first one that holds the largest score; the result
    is the threshold at that index, or 0.5 when the index is past the
    end of the thresholds. An empty list of scores raises. *)
Theorem optimal_threshold_first_maximum (f1_scores thresholds : list Q) :
  f1_scores ≠ [] →
  ∃ i m t,
    Evaluation.np_argmax f1_scores = Ok i
    ∧ f1_scores !! i = Some m
    ∧ (∀ j y, f1_scores !! j = Some y → (y <= m)%Q)
    ∧ (∀ j y, (j < i)%nat → f1_scores !! j = Some y → (y < m)%Q)
    ∧ Evaluation.optimal_threshold f1_scores thresholds = Ok t
    ∧ match thresholds !! i with
      | Some threshold => t = threshold
      | None => t = 0.5%Q
      end.
Proof.
  intros Hne. destruct f1_scores as [|x l]; [done|].
  destruct (argmax_from_spec [x] l x 0) as (m & Hm & Hmax & Hfirst).
  - done.
  - intros [|j] y [= <-]. apply Qle_refl.
  - intros j y Hj. lia.
  - simpl in Hm, Hmax, Hfirst.
    exists (Evaluation.argmax_from x 0 1 l), m.
    unfold Evaluation.optimal_threshold. simpl.
    destruct (Evaluation.argmax_from x 0 1 l <? length thresholds)%nat eqn:E.
    + apply Nat.ltb_lt in E. rewrite seq_getitem_lookup.
      destruct (lookup_lt_is_Some_2 thresholds _ E) as [t Ht].
      rewrite Ht. by exists t.
    + apply Nat.ltb_ge in E. exists 0.5%Q.
      by rewrite (proj2 (lookup_ge_None _ _) E).
Qed.

Lemma optimal_threshold_first_maximum_witness :
  ∃ i m t,
    Evaluation.np_argmax [0.2%Q; 0.7%Q; 0.7%Q; 0%Q] = Ok i
    ∧ [0.2%Q; 0.7%Q; 0.7%Q; 0%Q] !! i = Some m
    ∧ (∀ j y, [0.2%Q; 0.7%Q; 0.7%Q; 0%Q] !! j = Some y → (y <= m)%Q)
    ∧ (∀ j y, (j < i)%nat → [0.2%Q; 0.7%Q; 0.7%Q; 0%Q] !! j = Some y → (y < m)%Q)
    ∧ Evaluation.optimal_threshold [0.2%Q; 0.7%Q; 0.7%Q; 0%Q] [0.1%Q; 0.4%Q; 0.6%Q]
      = Ok t
    ∧ match [0.1%Q; 0.4%Q; 0.6%Q] !! i with
      | Some threshold => t = threshold
      | None => t = 0.5%Q
      end.
Proof.
  apply (optimal_threshold_first_maximum [0.2%Q; 0.7%Q; 0.7%Q; 0%Q]
           [0.1%Q; 0.4%Q; 0.6%Q]).
  discriminate.
Defined.

Lemma action_consistent_with_votes_witness :
  ∃ record r,
    predictions split_votes (np_array [PyInt 0]) = Ok record
    ∧ aggregate record 1 = Ok r
    ∧ action r = "BLOCK"
    ∧ ∃ name p,
        name ∈ probability_models
        ∧ PyDict.get name record = Some (Probability p 1) ∧ (0.8 <= p)%Q.
Proof.
  destruct (predictions split_votes (np_array [PyInt 0])) as [record|] eqn:Hrecord;
    [|vm_compute in Hrecord; discriminate].
  destruct (aggregate record 1) as [r|] eqn:Hr.
  - exists record, r. split; [reflexivity|]. split; [exact Hr|].
    assert (action r = "BLOCK") as Hblock.
    { injection Hrecord as <-. vm_compute in Hr. injection Hr as <-. reflexivity. }
    split; [exact Hblock|].
    exact (proj1 (action_consistent_with_votes split_votes (np_array [PyInt 0])
                    record 1 r Hrecord Hr) Hblock).
  - injection Hrecord as <-. vm_compute in Hr. discriminate.
Defined.
